(** * VisionX: the assistive obstacle narrator (obstacle_detector.py)

    A shallow embedding of the one Python module of the repository: the
    module-level configuration code, the classes [Speaker],
    [ObstacleDetector] and [AssistiveAI], and [main].

    The program only talks to external collaborators (console, speech
    engine, camera, display, clock, remote model).  Every call to one of
    them is recorded as an [event] in a trace, and what the collaborator
    answers is read from an explicit script, so that the control flow of the
    Python code (its [try]/[except]/[finally] blocks, its [while True] loop
    with [break], its early [return]) is the only thing the definitions
    below decide.

    Clock readings ([time.time()]) and the polling interval are modelled as
    exact rationals; the rounding of floating-point subtraction is not
    modelled.  An exception of a collaborator, and an interruption by the
    user ([KeyboardInterrupt]), is the answer of the external call during
    which it arrives; the calls of [cleanup] and the console are modelled as
    never failing. *)

From Stdlib Require Import List String Ascii Bool NArith ZArith QArith Lia Lqa.
Import ListNotations.

Local Open Scope list_scope.

(** ** Python strings *)

(** A Python [str] is a sequence of Unicode code points. *)
Definition pystr := list N.

(** An ASCII literal of the source. *)
Definition lit (s : string) : pystr :=
  map N_of_ascii (list_ascii_of_string s).
Arguments lit s%_string.

(** [str.isspace] on one code point, the table of CPython's
    [_PyUnicode_IsWhitespace]. *)
Definition py_isspace (c : N) : bool :=
  ((9 <=? c) && (c <=? 13) || (28 <=? c) && (c <=? 32)
   || (c =? 133) || (c =? 160) || (c =? 5760)
   || (8192 <=? c) && (c <=? 8202)
   || (c =? 8232) || (c =? 8233) || (c =? 8239) || (c =? 8287)
   || (c =? 12288))%N.

Fixpoint lstrip (s : pystr) : pystr :=
  match s with
  | [] => []
  | c :: s' => if py_isspace c then lstrip s' else s
  end.

Definition rstrip (s : pystr) : pystr := rev (lstrip (rev s)).

(** [str.strip()] without argument. *)
Definition strip (s : pystr) : pystr := rstrip (lstrip s).

(** Truthiness of a value that is [None] or a [str]. *)
Definition truthy (v : option pystr) : bool :=
  match v with
  | None => false
  | Some [] => false
  | Some (_ :: _) => true
  end.

(** [a or b] on such values. *)
Definition py_or (a b : option pystr) : option pystr :=
  if truthy a then a else b.

(** [ord(c)] of an ASCII character. *)
Definition ord (c : ascii) : Z := Z.of_N (N_of_ascii c).
Arguments ord c%_char.

(** [base64.b64encode(bs).decode("utf-8")]. *)
Definition b64_char (i : N) : N :=
  nth (N.to_nat i)
      (lit "ABCDEFGHIJKLMNOPQRSTUVWXYZabcdefghijklmnopqrstuvwxyz0123456789+/")
      61%N.

Fixpoint b64encode (bs : list N) : pystr :=
  match bs with
  | [] => []
  | [a] =>
      [b64_char (a / 4); b64_char ((a mod 4) * 16); 61; 61]%N
  | [a; b] =>
      [b64_char (a / 4); b64_char ((a mod 4) * 16 + b / 16);
       b64_char ((b mod 16) * 4); 61]%N
  | a :: b :: c :: rest =>
      [b64_char (a / 4); b64_char ((a mod 4) * 16 + b / 16);
       b64_char ((b mod 16) * 4 + c / 64); b64_char (c mod 64)]%N
      ++ b64encode rest
  end.

(** ** Exceptions *)

Inductive exn_class :=
| ValueError
| AttributeError
| OtherException (name : string)      (* any other subclass of Exception *)
| KeyboardInterrupt
| OtherBaseException (name : string). (* SystemExit and the like *)

Record exn := Exn { exn_cls : exn_class; exn_msg : pystr }.

(** What [except Exception] matches. *)
Definition is_Exception (e : exn) : bool :=
  match exn_cls e with
  | ValueError | AttributeError | OtherException _ => true
  | KeyboardInterrupt | OtherBaseException _ => false
  end.

(** What [except KeyboardInterrupt] matches. *)
Definition is_KeyboardInterrupt (e : exn) : bool :=
  match exn_cls e with
  | KeyboardInterrupt => true
  | _ => false
  end.

(** ** Events and the effect monad *)

Inductive frame := Frame (id : N).

Inductive event :=
| EvPrint (line : pystr)                  (* print(line) *)
| EvPrintInterval (i : Q)                 (* print(f"Analyzing frames every {i} seconds") *)
| EvStdoutReconfigure                     (* sys.stdout.reconfigure(encoding='utf-8') *)
| EvLoadDotenv                            (* load_dotenv() *)
| EvConfigure (api_key : pystr)           (* genai.configure(api_key=...) *)
| EvGenerativeModel (name : pystr)        (* genai.GenerativeModel(name) *)
| EvTtsInit                               (* pyttsx3.init() *)
| EvSetProperty (name : pystr) (v : Z)    (* engine.setProperty(name, v) *)
| EvSay (text : pystr)                    (* engine.say(text) *)
| EvRunAndWait                            (* engine.runAndWait() *)
| EvImencode (ext : pystr) (f : frame)    (* cv2.imencode(ext, f) *)
| EvGenerateContent (prompt mime data : pystr) (* model.generate_content([...]) *)
| EvVideoCapture (camera_id : Z)          (* cv2.VideoCapture(camera_id) *)
| EvIsOpened                              (* cap.isOpened() *)
| EvRead                                  (* cap.read() *)
| EvTime (t : Q)                          (* time.time() answered t *)
| EvDispatch (t : Q)                      (* entry into _analyze_and_speak, last_analysis = t *)
| EvImshow (title : pystr) (f : frame)    (* cv2.imshow(title, f) *)
| EvWaitKey (delay : Z)                   (* cv2.waitKey(delay) *)
| EvRelease                               (* cap.release() *)
| EvDestroyAllWindows.                    (* cv2.destroyAllWindows() *)

(** How a piece of Python code ends.  [Blocked] is the end of the script of
    answers: the code is still running and waits for its environment. *)
Inductive result (A : Type) :=
| Done (a : A)
| Raised (e : exn)
| Blocked.
Arguments Done {A} a.
Arguments Raised {A} e.
Arguments Blocked {A}.

Definition M (A : Type) : Type := (list event * result A)%type.

Definition trace {A} (m : M A) : list event := fst m.
Definition outcome_of {A} (m : M A) : result A := snd m.

Definition ret {A} (a : A) : M A := ([], Done a).
Definition raise {A} (e : exn) : M A := ([], Raised e).
Definition blocked {A} : M A := ([], Blocked).
Definition tell (ev : event) : M unit := ([ev], Done tt).

Definition bind {A B} (m : M A) (k : A -> M B) : M B :=
  match snd m with
  | Done a => (fst m ++ fst (k a), snd (k a))
  | Raised e => (fst m, Raised e)
  | Blocked => (fst m, Blocked)
  end.

Notation "x <- m ;; k" := (bind m (fun x => k))
  (at level 61, m at next level, right associativity).
Notation "m ;;; k" := (bind m (fun _ => k))
  (at level 61, right associativity).

(** [try: body / except <classes> as e: handler e]; [handler e = None] when
    no clause matches [e]. *)
Definition try_except {A} (body : M A) (handler : exn -> option (M A)) : M A :=
  match snd body with
  | Raised e =>
      match handler e with
      | Some h => (fst body ++ fst h, snd h)
      | None => body
      end
  | _ => body
  end.

(** [try: body / finally: fin].  The [finally] block runs when the body
    returns or raises; an exception of the [finally] block replaces the
    pending one. *)
Definition try_finally {A} (body : M A) (fin : M unit) : M A :=
  match snd body with
  | Blocked => body
  | r =>
      (fst body ++ fst fin,
       match snd fin with
       | Done _ => r
       | Raised e => Raised e
       | Blocked => Blocked
       end)
  end.

(** What an external call answers. *)
Inductive answer (A : Type) :=
| Returns (a : A)
| Throws (e : exn).
Arguments Returns {A} a.
Arguments Throws {A} e.

Definition call {A} (ev : event) (o : answer A) : M A :=
  ([ev], match o with Returns a => Done a | Throws e => Raised e end).

Definition print (line : pystr) : M unit := tell (EvPrint line).

(** ["=" * 50] *)
Definition rule50 : pystr := repeat 61%N 50.

(** ** Text-to-speech: class Speaker *)

(** What the speech engine does during one [speak]. *)
Record tts_outcome := {
  say_result : answer unit;          (* engine.say(text) *)
  run_result : answer unit           (* engine.runAndWait() *)
}.

(** What the speech engine does while it is constructed. *)
Record tts_boot := {
  boot_init : answer unit;           (* pyttsx3.init() *)
  boot_setProperty : answer unit     (* engine.setProperty('rate', rate) *)
}.

Module Speaker.

Record t := {
  has_engine : bool;               (* self.engine has been assigned *)
  enabled : bool                   (* self.enabled *)
}.

Definition __init__ (rate : Z) (o : tts_boot) : M t :=
  try_except
    (call EvTtsInit (boot_init o) ;;;
     call (EvSetProperty (lit "rate") rate) (boot_setProperty o) ;;;
     ret {| has_engine := true; enabled := true |})
    (fun e =>
       if is_Exception e then
         Some (print ([9888; 65039]%N ++ lit " TTS initialization failed: "
                        ++ exn_msg e) ;;;
               ret {| has_engine :=
                        match boot_init o with
                        | Returns _ => true
                        | Throws _ => false
                        end;
                      enabled := false |})
       else None).

(** The default of the parameter [print_text] of [speak]; the call sites
    of the repository all rely on it. *)
Definition print_text_default : bool := true.

Definition speak (self : t) (text : pystr) (print_text : bool)
           (o : tts_outcome) : M unit :=
  (if print_text then print (lit "AI: " ++ text) else ret tt) ;;;
  if enabled self then
    try_except
      ((if has_engine self then call (EvSay text) (say_result o)
        else raise (Exn AttributeError
                        (lit "'Speaker' object has no attribute 'engine'"))) ;;;
       call EvRunAndWait (run_result o))
      (fun e =>
         if is_Exception e then
           Some (print (lit "TTS Error: " ++ exn_msg e))
         else None)
  else ret tt.

End Speaker.

(** ** Image analysis: class ObstacleDetector *)

(** The [text] attribute of the remote response: missing, a value ([None]
    or a [str]), or a property whose getter raises. *)
Inductive attr :=
| AttrAbsent
| AttrValue (v : option pystr)
| AttrRaises (e : exn).

Record response := { text : attr }.

(** [hasattr(response, "text")]: only [AttributeError] is swallowed. *)
Definition hasattr_text (r : response) : M bool :=
  match text r with
  | AttrAbsent => ret false
  | AttrValue _ => ret true
  | AttrRaises e =>
      match exn_cls e with
      | AttributeError => ret false
      | _ => raise e
      end
  end.

(** [response.text] *)
Definition get_text (r : response) : M (option pystr) :=
  match text r with
  | AttrAbsent =>
      raise (Exn AttributeError (lit "object has no attribute 'text'"))
  | AttrValue v => ret v
  | AttrRaises e => raise e
  end.

(** What the collaborators of one [analyze_frame] call answer. *)
Record analysis_script := {
  an_imencode : answer (option (list N)); (* cv2.imencode: None is success = False *)
  an_generate : answer response      (* model.generate_content([...]) *)
}.

Definition MODEL_NAME : pystr := lit "gemini-2.5-flash".

Module ObstacleDetector.

Record t := {
  model : pystr;
  prompt : pystr
}.

(** The instruction text assigned to [self.prompt]. *)
Definition fixed_prompt : pystr :=
  lit "You are assisting a visually impaired person. "
  ++ lit "Analyze this image and describe any obstacles directly in the person's path. "
  ++ lit "If there are obstacles, specify their position (left, center, or right). "
  ++ lit "Be concise and actionable. Examples: 'Clear path ahead', "
  ++ lit "'Obstacle on right, move left', 'Person directly ahead, stop'.".

Definition __init__ (model_name : pystr) : M t :=
  tell (EvGenerativeModel model_name) ;;;
  ret {| model := model_name; prompt := fixed_prompt |}.

Definition analyze_frame (self : t) (f : frame) (o : analysis_script)
  : M pystr :=
  encoded <- call (EvImencode (lit ".jpg") f) (an_imencode o) ;;
  match encoded with
  | None => raise (Exn ValueError (lit "Failed to encode frame"))
  | Some image_bytes =>
      let image_base64 := b64encode image_bytes in
      response <- call (EvGenerateContent (prompt self) (lit "image/jpeg")
                                          image_base64)
                       (an_generate o) ;;
      has <- hasattr_text response ;;
      usable <- (if has then v <- get_text response ;; ret (truthy v)
                 else ret false) ;;
      if usable then
        v <- get_text response ;;
        match v with
        | Some s => ret (strip s)
        | None =>
            raise (Exn AttributeError
                       (lit "'NoneType' object has no attribute 'strip'"))
        end
      else ret (lit "No clear response from AI.")
  end.

End ObstacleDetector.

(** ** Main application: class AssistiveAI *)

(** What the collaborators answer during one pass through the loop body.
    An answer is only consumed when the code reaches the call. *)
Record iteration := {
  it_read : answer (option frame);   (* cap.read(): None is ret = False *)
  it_time : Q;                       (* time.time() *)
  it_analysis : analysis_script;     (* inside detector.analyze_frame *)
  it_tts : tts_outcome;              (* speak(result) *)
  it_tts_error : tts_outcome;        (* speak("Error analyzing the scene.") *)
  it_imshow : answer unit;           (* cv2.imshow(...) *)
  it_waitKey : answer Z;             (* cv2.waitKey(1) *)
  it_tts_quit : tts_outcome          (* speak("Shutting down assistive AI system.") *)
}.

(** What the collaborators answer during one [start]. *)
Record session := {
  ses_opened : bool;                 (* cap.isOpened() *)
  ses_tts_activation : tts_outcome;  (* speak("Assistive AI system activated.") *)
  ses_iterations : list iteration;   (* the passes through the loop body *)
  ses_tts_interrupt : tts_outcome    (* speak("System interrupted.") *)
}.

(** How one pass through the body of [while True] ends. *)
Inductive loop_ctl :=
| Break
| Continue (last_analysis : Q).

Module AssistiveAI.

Record t := {
  camera_id : Z;
  interval : Q;
  speaker : Speaker.t;
  detector : ObstacleDetector.t;
  cap : option Z                   (* None, or the capture of a camera id *)
}.

Definition __init__ (camera_id : Z) (interval : Q) (o : tts_boot) : M t :=
  sp <- Speaker.__init__ 170 o ;;
  det <- ObstacleDetector.__init__ MODEL_NAME ;;
  ret {| camera_id := camera_id; interval := interval;
         speaker := sp; detector := det; cap := None |}.

Definition _analyze_and_speak (self : t) (f : frame) (it : iteration)
  : M unit :=
  try_except
    (print (10%N :: lit "[ANALYZING] Processing frame...") ;;;
     result <- ObstacleDetector.analyze_frame (detector self) f
                 (it_analysis it) ;;
     Speaker.speak (speaker self) result Speaker.print_text_default
       (it_tts it))
    (fun e =>
       if is_Exception e then
         Some (print (lit "[WARNING] Analysis error: " ++ exn_msg e) ;;;
               Speaker.speak (speaker self)
                 (lit "Error analyzing the scene.")
                 Speaker.print_text_default (it_tts_error it))
       else None).

Definition cleanup (self : t) : M unit :=
  (match cap self with
   | Some _ => tell EvRelease
   | None => ret tt
   end) ;;;
  tell EvDestroyAllWindows ;;;
  print (10%N :: rule50) ;;;
  print (lit "SYSTEM SHUTDOWN COMPLETE") ;;;
  print rule50.

(** [cv2.waitKey(1) & 0xFF == ord('q')] *)
Definition quit_key (key : Z) : bool :=
  (Z.land key 255 =? ord "q")%Z.

(** Lines 131-134 of the loop body: the rate-limited dispatch.  The result
    is the value of [last_analysis] afterwards. *)
Definition analysis_step (self : t) (last_analysis : Q) (f : frame)
           (it : iteration) : M Q :=
  current_time <- call (EvTime (it_time it)) (Returns (it_time it)) ;;
  if Qle_bool (interval self) (current_time - last_analysis) then
    tell (EvDispatch current_time) ;;;
    _analyze_and_speak self f it ;;;
    ret current_time
  else ret last_analysis.

(** Lines 136-139 of the loop body: render the frame and poll the
    keyboard.  The result is [true] when the code reaches [break]. *)
Definition display_step (self : t) (f : frame) (it : iteration) : M bool :=
  call (EvImshow (lit "Assistive AI - Live Feed (Press Q to quit)") f)
       (it_imshow it) ;;;
  key <- call (EvWaitKey 1) (it_waitKey it) ;;
  if quit_key key then
    Speaker.speak (speaker self)
      (lit "Shutting down assistive AI system.")
      Speaker.print_text_default (it_tts_quit it) ;;;
    ret true
  else ret false.

(** The body of [while True]. *)
Definition loop_body (self : t) (last_analysis : Q) (it : iteration)
  : M loop_ctl :=
  r <- call EvRead (it_read it) ;;
  match r with
  | None => print (lit "[ERROR] Could not read frame.") ;;; ret Break
  | Some f =>
      last_analysis' <- analysis_step self last_analysis f it ;;
      stop <- display_step self f it ;;
      ret (if stop then Break else Continue last_analysis')
  end.

(** [while True: ...], one script entry per pass. *)
Fixpoint poll_loop (self : t) (last_analysis : Q) (script : list iteration)
  : M unit :=
  match script with
  | [] => blocked
  | it :: rest =>
      c <- loop_body self last_analysis it ;;
      match c with
      | Break => ret tt
      | Continue last_analysis' => poll_loop self last_analysis' rest
      end
  end.

(** [self.cap = c] *)
Definition set_cap (self : t) (c : option Z) : t :=
  {| camera_id := camera_id self; interval := interval self;
     speaker := speaker self; detector := detector self; cap := c |}.

(** Lines 115-121 of [start]: the banner and the activation notice. *)
Definition announce (self : t) (w : session) : M unit :=
  print rule50 ;;;
  print (lit "ASSISTIVE AI SYSTEM - ACTIVE") ;;;
  print rule50 ;;;
  tell (EvPrintInterval (interval self)) ;;;
  print (lit "Press 'Q' to quit" ++ [10%N]) ;;;
  Speaker.speak (speaker self) (lit "Assistive AI system activated.")
    Speaker.print_text_default (ses_tts_activation w).

(** Lines 123-143 of [start]: the [try] block with its
    [except KeyboardInterrupt] clause. *)
Definition guarded_loop (self : t) (w : session) : M unit :=
  try_except
    (poll_loop self 0 (ses_iterations w))
    (fun e =>
       if is_KeyboardInterrupt e then
         Some (print (10%N :: lit "[INTERRUPTED] User stopped the system") ;;;
               Speaker.speak (speaker self) (lit "System interrupted.")
                 Speaker.print_text_default (ses_tts_interrupt w))
       else None).

Definition start (self : t) (w : session) : M unit :=
  tell (EvVideoCapture (camera_id self)) ;;;
  let self := set_cap self (Some (camera_id self)) in
  opened <- call EvIsOpened (Returns (ses_opened w)) ;;
  if negb opened then print (lit "[ERROR] Could not open webcam.")
  else
    announce self w ;;;
    try_finally (guarded_loop self w) (cleanup self).

End AssistiveAI.

(** ** Module-level code and entry point *)

(** The process environment the module is loaded in. *)
Record host := {
  host_win32 : bool;                       (* sys.platform == 'win32' *)
  host_dotenv : bool;                      (* python-dotenv can be imported *)
  host_env : string -> option pystr        (* os.getenv, after load_dotenv() *)
}.

Definition getenv (h : host) (name : string) : option pystr :=
  host_env h name.

Definition API_KEY (h : host) : option pystr :=
  py_or (getenv h "GEMINI_API_KEY")
        (py_or (getenv h "GOOGLE_API_KEY") (getenv h "OPENAI_API_KEY")).

Definition missing_key_message : pystr :=
  10060%N :: lit " GEMINI_API_KEY not found. Set GEMINI_API_KEY in your environment or .env file."
  ++ 10%N :: lit "Example: GEMINI_API_KEY=your_key_here" ++ [10%N].

(** The statements of the module up to [genai.configure]; the result is the
    credential. *)
Definition module_init (h : host) : M pystr :=
  (if host_win32 h then tell EvStdoutReconfigure else ret tt) ;;;
  (if host_dotenv h then tell EvLoadDotenv
   else print (lit "[INFO] python-dotenv not installed. Install with: pip install python-dotenv")) ;;;
  match API_KEY h with
  | Some (c :: s) => tell (EvConfigure (c :: s)) ;;; ret (c :: s)
  | _ => raise (Exn ValueError missing_key_message)
  end.

Definition main (o : tts_boot) (w : session) : M unit :=
  app <- AssistiveAI.__init__ 0 3 o ;;
  AssistiveAI.start app w.

(** The module run as a script. *)
Definition program (h : host) (o : tts_boot) (w : session) : M unit :=
  module_init h ;;;
  main o w.

(** ** Observations on traces *)

(** The clock readings at which [_analyze_and_speak] was entered, in order. *)
Fixpoint dispatch_times (tr : list event) : list Q :=
  match tr with
  | [] => []
  | EvDispatch t :: tr' => t :: dispatch_times tr'
  | _ :: tr' => dispatch_times tr'
  end.

(** Consecutive readings of [l], starting after [a], are at least [i]
    apart. *)
Fixpoint spaced (i a : Q) (l : list Q) : Prop :=
  match l with
  | [] => True
  | t :: l' => i <= t - a /\ spaced i t l'
  end.

(** The last reading of [l], or [a] when [l] is empty. *)
Definition last_reading (a : Q) (l : list Q) : Q :=
  fold_left (fun _ t => t) l a.

(** A piece of code has ended, by returning or by raising. *)
Definition exited {A} (m : M A) : Prop := outcome_of m <> Blocked.

Definition count_ev (p : event -> bool) (tr : list event) : nat :=
  List.length (filter p tr).

Definition is_release (e : event) : bool :=
  match e with EvRelease => true | _ => false end.

Definition is_destroy (e : event) : bool :=
  match e with EvDestroyAllWindows => true | _ => false end.

Definition is_print (e : event) : bool :=
  match e with EvPrint _ => true | _ => false end.

Definition is_read (e : event) : bool :=
  match e with EvRead => true | _ => false end.

(** A remote inference call is attempted. *)
Definition is_remote (e : event) : bool :=
  match e with EvGenerateContent _ _ _ => true | _ => false end.

(** Audio playback is attempted. *)
Definition is_playback (e : event) : bool :=
  match e with EvSay _ | EvRunAndWait => true | _ => false end.

(** A camera, speaker or detector object is constructed. *)
Definition is_construction (e : event) : bool :=
  match e with
  | EvVideoCapture _ | EvTtsInit | EvGenerativeModel _ => true
  | _ => false
  end.

(** The events [Speaker.speak] can emit. *)
Definition speech_ev (e : event) : bool :=
  match e with
  | EvPrint _ | EvSay _ | EvRunAndWait => true
  | _ => false
  end.

(** The events [_analyze_and_speak] can emit. *)
Definition analysis_ev (e : event) : bool :=
  match e with
  | EvImencode _ _ | EvGenerateContent _ _ _ => true
  | _ => speech_ev e
  end.

(** The events the dispatch step can emit. *)
Definition step_ev (e : event) : bool :=
  match e with
  | EvTime _ | EvDispatch _ => true
  | _ => analysis_ev e
  end.

(** The events the display step can emit. *)
Definition display_ev (e : event) : bool :=
  match e with
  | EvImshow _ _ | EvWaitKey _ => true
  | _ => speech_ev e
  end.

(** The events the polling loop can emit. *)
Definition loop_ev (e : event) : bool :=
  match e with
  | EvRead | EvTime _ | EvDispatch _ | EvImshow _ _ | EvWaitKey _ => true
  | _ => analysis_ev e
  end.

(** The events the announcement of [start] can emit. *)
Definition console_ev (e : event) : bool :=
  match e with
  | EvPrintInterval _ => true
  | _ => speech_ev e
  end.

(** The events [start] can emit between opening the camera and the
    [finally] block. *)
Definition session_ev (e : event) : bool :=
  match e with
  | EvPrintInterval _ => true
  | _ => loop_ev e
  end.

Definition is_dispatch (e : event) : bool :=
  match e with EvDispatch _ => true | _ => false end.

Definition is_cleanup (e : event) : bool :=
  match e with EvRelease | EvDestroyAllWindows => true | _ => false end.

(** [m] emits only events of the class [p]. *)
Definition only (p : event -> bool) {A} (m : M A) : Prop :=
  Forall (fun e => p e = true) (trace m).

(** An external call returns, or throws something [except Exception]
    catches. *)
Definition answer_ok {A} (a : answer A) : bool :=
  match a with
  | Returns _ => true
  | Throws e => is_Exception e
  end.

Definition tts_ok (o : tts_outcome) : bool :=
  answer_ok (say_result o) && answer_ok (run_result o).

Definition analysis_ok (o : analysis_script) : bool :=
  match an_imencode o with
  | Throws e => is_Exception e
  | Returns _ =>
      match an_generate o with
      | Returns r =>
          match text r with
          | AttrRaises e => is_Exception e
          | _ => true
          end
      | Throws e => is_Exception e
      end
  end.

(** A pass of the loop in which the frame is read and shown, no quit key is
    pressed, and nothing outside [Exception] (no interruption) is thrown.
    The analysis itself may fail in any way [Exception] covers. *)
Definition live (it : iteration) : bool :=
  match it_read it, it_imshow it, it_waitKey it with
  | Returns (Some _), Returns _, Returns key =>
      negb (AssistiveAI.quit_key key)
      && analysis_ok (it_analysis it)
      && tts_ok (it_tts it) && tts_ok (it_tts_error it)
  | _, _, _ => false
  end.

(** The first non-empty value among the candidates, in the words of the
    specification. *)
Fixpoint first_nonempty (l : list (option pystr)) : option pystr :=
  match l with
  | [] => None
  | Some (c :: s) :: _ => Some (c :: s)
  | _ :: l' => first_nonempty l'
  end.

(** The camera was released once, the display closed once, and the
    shutdown banner printed. *)
Definition cleaned_up_once (tr : list event) : Prop :=
  count_ev is_release tr = 1%nat
  /\ count_ev is_destroy tr = 1%nat
  /\ In (EvPrint (lit "SYSTEM SHUTDOWN COMPLETE")) tr.

(** What [cleanup] emits when the camera handle is set. *)
Definition cleanup_trace : list event :=
  [EvRelease; EvDestroyAllWindows; EvPrint (10%N :: rule50);
   EvPrint (lit "SYSTEM SHUTDOWN COMPLETE"); EvPrint rule50].

(** ** Sample environments *)

Definition tts_fine : tts_outcome :=
  {| say_result := Returns tt; run_result := Returns tt |}.

Definition boot_fine : tts_boot :=
  {| boot_init := Returns tt; boot_setProperty := Returns tt |}.

Definition sample_speaker : Speaker.t :=
  {| Speaker.has_engine := true; Speaker.enabled := true |}.

Definition sample_detector : ObstacleDetector.t :=
  {| ObstacleDetector.model := MODEL_NAME;
     ObstacleDetector.prompt := ObstacleDetector.fixed_prompt |}.

(** [AssistiveAI(camera_id=0, interval=3)] with a working speech engine. *)
Definition sample_app : AssistiveAI.t :=
  {| AssistiveAI.camera_id := 0; AssistiveAI.interval := 3;
     AssistiveAI.speaker := sample_speaker;
     AssistiveAI.detector := sample_detector;
     AssistiveAI.cap := None |}.

(** The remote model answers with the given text. *)
Definition answers (s : pystr) : analysis_script :=
  {| an_imencode := Returns (Some [255; 216; 255]%N);
     an_generate := Returns {| text := AttrValue (Some s) |} |}.

(** The remote call fails with a network error. *)
Definition network_down : analysis_script :=
  {| an_imencode := Returns (Some [255; 216; 255]%N);
     an_generate :=
       Throws (Exn (OtherException "ConnectionError") (lit "unreachable")) |}.

(** A pass in which a frame is read at clock reading [t], the analysis (if
    any) meets [an], and [waitKey] returns [key]. *)
Definition pass (t : Q) (key : Z) (an : analysis_script) : iteration :=
  {| it_read := Returns (Some (Frame 1)); it_time := t;
     it_analysis := an; it_tts := tts_fine; it_tts_error := tts_fine;
     it_imshow := Returns tt; it_waitKey := Returns key;
     it_tts_quit := tts_fine |}.

(** A session of the given passes on a camera that opens. *)
Definition session_of (its : list iteration) : session :=
  {| ses_opened := true; ses_tts_activation := tts_fine;
     ses_iterations := its; ses_tts_interrupt := tts_fine |}.

(** Four passes one second apart from reading 100 on, a failing analysis in
    the first, the quit key in the last. *)
(** [cv2.imencode] itself raises, as it does on an empty frame. *)
Definition encoder_raises : analysis_script :=
  {| an_imencode :=
       Throws (Exn (OtherException "cv2.error") (lit "empty frame"));
     an_generate := Returns {| text := AttrAbsent |} |}.

(** A pass in which [cap.read()] reports failure. *)
Definition read_failure : iteration :=
  {| it_read := Returns None; it_time := 0;
     it_analysis := network_down; it_tts := tts_fine; it_tts_error := tts_fine;
     it_imshow := Returns tt; it_waitKey := Returns (-1)%Z;
     it_tts_quit := tts_fine |}.

(** A pass at clock reading [t] in which Ctrl-C arrives during
    [cv2.waitKey]. *)
Definition interrupted (t : Q) : iteration :=
  {| it_read := Returns (Some (Frame 1)); it_time := t;
     it_analysis := answers (lit "Clear path ahead");
     it_tts := tts_fine; it_tts_error := tts_fine;
     it_imshow := Returns tt;
     it_waitKey := Throws (Exn KeyboardInterrupt []);
     it_tts_quit := tts_fine |}.

(** A camera that cannot be opened. *)
Definition no_camera : session :=
  {| ses_opened := false; ses_tts_activation := tts_fine;
     ses_iterations := []; ses_tts_interrupt := tts_fine |}.

Definition sample_session : session :=
  session_of [pass 100 (-1) network_down; pass 101 (-1) (answers (lit "Clear path ahead"));
              pass 103 (-1) (answers (lit "Clear path ahead"));
              pass 104 113 (answers (lit "Clear path ahead"))].

(** ** Further observations *)

(** No audio playback. *)
Definition silent_ev (e : event) : bool := negb (is_playback e).

(** The events only the body of the polling loop emits. *)
Definition inner_ev (e : event) : bool :=
  match e with
  | EvRead | EvTime _ | EvDispatch _ | EvImencode _ _
  | EvGenerateContent _ _ _ | EvImshow _ _ | EvWaitKey _ => true
  | _ => false
  end.

(** Clock readings that never go back, starting from [a]. *)
Fixpoint nondecreasing (a : Q) (l : list Q) : Prop :=
  match l with
  | [] => True
  | t :: l' => a <= t /\ nondecreasing t l'
  end.

(** The events of constructing the speaker, the detector and the capture,
    in the order [main] reaches them. *)
Definition construction_order : list event :=
  [EvTtsInit; EvGenerativeModel MODEL_NAME; EvVideoCapture 0].

(** A speaker whose engine could not be started. *)
Definition mute_speaker : Speaker.t :=
  {| Speaker.has_engine := false; Speaker.enabled := false |}.

(** A speech engine that cannot be started. *)
Definition boot_broken : tts_boot :=
  {| boot_init := Throws (Exn (OtherException "RuntimeError") (lit "no driver"));
     boot_setProperty := Returns tt |}.

(** A speech engine that starts but rejects the rate. *)
Definition boot_no_rate : tts_boot :=
  {| boot_init := Returns tt;
     boot_setProperty :=
       Throws (Exn (OtherException "RuntimeError") (lit "bad rate")) |}.

(** A process environment with only the second credential variable set. *)
Definition sample_host : host :=
  {| host_win32 := false; host_dotenv := true;
     host_env := fun name =>
                   if String.eqb name "GOOGLE_API_KEY" then Some (lit "g-key")
                   else None |}.


(** A speech engine that is busy when [say] is called. *)
Definition tts_busy : tts_outcome :=
  {| say_result :=
       Throws (Exn (OtherException "RuntimeError") (lit "device busy"));
     run_result := Returns tt |}.

(** A pass at reading 100 whose analysis succeeds and whose playback of the
    result fails. *)
Definition pass_playback_fails : iteration :=
  {| it_read := Returns (Some (Frame 1)); it_time := 100;
     it_analysis := answers (lit "Clear path ahead");
     it_tts := tts_busy; it_tts_error := tts_fine;
     it_imshow := Returns tt; it_waitKey := Returns (-1)%Z;
     it_tts_quit := tts_fine |}.

(** The remote call is interrupted by the user. *)
Definition remote_interrupted : analysis_script :=
  {| an_imencode := Returns (Some [255; 216; 255]%N);
     an_generate := Throws (Exn KeyboardInterrupt []) |}.

(** * Verification *)

(** ** The effect monad *)

Lemma trace_bind {A B} (m : M A) (k : A -> M B) :
  trace (bind m k)
  = trace m ++ match outcome_of m with
               | Done a => trace (k a)
               | _ => []
               end.
Proof.
  unfold bind, trace, outcome_of.
  destruct (snd m); simpl; now rewrite ?app_nil_r.
Qed.

Lemma outcome_bind {A B} (m : M A) (k : A -> M B) :
  outcome_of (bind m k)
  = match outcome_of m with
    | Done a => outcome_of (k a)
    | Raised e => Raised e
    | Blocked => Blocked
    end.
Proof. unfold bind, outcome_of. now destruct (snd m). Qed.

Lemma trace_try_except {A} (body : M A) handler :
  trace (try_except body handler)
  = trace body ++ match outcome_of body with
                  | Raised e =>
                      match handler e with
                      | Some h => trace h
                      | None => []
                      end
                  | _ => []
                  end.
Proof.
  unfold try_except, trace, outcome_of.
  destruct (snd body) as [a|e|]; simpl; rewrite ?app_nil_r; auto.
  destruct (handler e); simpl; now rewrite ?app_nil_r.
Qed.

Lemma outcome_try_except {A} (body : M A) handler :
  outcome_of (try_except body handler)
  = match outcome_of body with
    | Raised e =>
        match handler e with
        | Some h => outcome_of h
        | None => Raised e
        end
    | r => r
    end.
Proof.
  unfold try_except, outcome_of.
  destruct (snd body) as [a|e|] eqn:E; simpl; auto.
  destruct (handler e); simpl; auto.
Qed.

Lemma trace_try_finally {A} (body : M A) fin :
  trace (try_finally body fin)
  = trace body ++ match outcome_of body with
                  | Blocked => []
                  | _ => trace fin
                  end.
Proof.
  unfold try_finally, trace, outcome_of.
  destruct (snd body); simpl; now rewrite ?app_nil_r.
Qed.

Lemma outcome_try_finally {A} (body : M A) fin :
  outcome_of (try_finally body fin)
  = match outcome_of body with
    | Blocked => Blocked
    | r => match outcome_of fin with
           | Done _ => r
           | Raised e => Raised e
           | Blocked => Blocked
           end
    end.
Proof.
  unfold try_finally, outcome_of.
  destruct (snd body) eqn:E; simpl; auto.
Qed.

Lemma trace_call {A} ev (o : answer A) : trace (call ev o) = [ev].
Proof. reflexivity. Qed.

Lemma outcome_call {A} ev (o : answer A) :
  outcome_of (call ev o)
  = match o with Returns a => Done a | Throws e => Raised e end.
Proof. reflexivity. Qed.

Lemma trace_tell ev : trace (tell ev) = [ev].
Proof. reflexivity. Qed.

Lemma outcome_tell ev : outcome_of (tell ev) = Done tt.
Proof. reflexivity. Qed.

Lemma trace_ret {A} (a : A) : trace (ret a) = [].
Proof. reflexivity. Qed.

Lemma outcome_ret {A} (a : A) : outcome_of (ret a) = Done a.
Proof. reflexivity. Qed.

(** One step of symbolic execution of a sequence of statements. *)
Ltac step :=
  try unfold print;
  rewrite ?trace_bind, ?outcome_bind, ?trace_tell, ?outcome_tell,
    ?trace_call, ?outcome_call, ?trace_ret, ?outcome_ret;
  cbv beta iota.

Ltac steps := repeat progress step.

(** ** Which events a piece of code can emit *)

Lemma only_nil p {A} (r : result A) : only p (([], r) : M A).
Proof. constructor. Qed.

Lemma only_one p {A} ev (r : result A) :
  p ev = true -> only p (([ev], r) : M A).
Proof. intro H. repeat constructor. exact H. Qed.

Lemma only_bind p {A B} (m : M A) (k : A -> M B) :
  only p m -> (forall a, only p (k a)) -> only p (bind m k).
Proof.
  unfold only. intros Hm Hk. rewrite trace_bind.
  apply Forall_app. split; auto.
  destruct (outcome_of m); auto.
Qed.

Lemma only_try_except p {A} (body : M A) handler :
  only p body ->
  (forall e h, handler e = Some h -> only p h) ->
  only p (try_except body handler).
Proof.
  unfold only. intros Hb Hh. rewrite trace_try_except.
  apply Forall_app. split; auto.
  destruct (outcome_of body) as [a|e|]; auto.
  destruct (handler e) eqn:E; auto.
  exact (Hh _ _ E).
Qed.

Lemma only_try_finally p {A} (body : M A) fin :
  only p body -> only p fin -> only p (try_finally body fin).
Proof.
  unfold only. intros Hb Hf. rewrite trace_try_finally.
  apply Forall_app. split; auto.
  destruct (outcome_of body); auto.
Qed.

Lemma only_weaken (p q : event -> bool) {A} (m : M A) :
  (forall e, p e = true -> q e = true) -> only p m -> only q m.
Proof. unfold only. intros Hpq. apply Forall_impl. exact Hpq. Qed.

Lemma speech_analysis e : speech_ev e = true -> analysis_ev e = true.
Proof. now destruct e. Qed.

Ltac handler_cases H :=
  match type of H with
  | (if ?b then _ else _) = Some _ =>
      destruct b; [injection H as <- | discriminate H]
  end.

Ltac only_leaf :=
  first [ apply only_nil
        | apply only_one; reflexivity ].

Ltac only_go :=
  repeat match goal with
         | |- only _ (bind _ _) => apply only_bind; [ | intro ]
         | |- only _ (try_except _ _) =>
             apply only_try_except;
             [ | let e := fresh "e" in
                 let h := fresh "h" in
                 let H := fresh "H" in
                 intros e h H; handler_cases H ]
         | |- only _ (try_finally _ _) => apply only_try_finally
         | |- only _ (if ?b then _ else _) => destruct b
         | |- only _ (match ?x with _ => _ end) => destruct x
         | |- only _ (ret _) => apply only_nil
         | |- only _ (raise _) => apply only_nil
         | |- only _ blocked => apply only_nil
         | |- only _ (tell _) => apply only_one; reflexivity
         | |- only _ (print _) => apply only_one; reflexivity
         | |- only _ (call _ _) => apply only_one; reflexivity
         end.

Lemma speak_only self txt pt o :
  only speech_ev (Speaker.speak self txt pt o).
Proof. unfold Speaker.speak. only_go. Qed.

Lemma analyze_frame_only self f o :
  only analysis_ev (ObstacleDetector.analyze_frame self f o).
Proof.
  unfold ObstacleDetector.analyze_frame, hasattr_text, get_text.
  only_go.
Qed.

Lemma analyze_and_speak_only self f it :
  only analysis_ev (AssistiveAI._analyze_and_speak self f it).
Proof.
  unfold AssistiveAI._analyze_and_speak.
  only_go;
    try apply analyze_frame_only;
    apply (only_weaken speech_ev); auto using speech_analysis, speak_only.
Qed.

Lemma display_loop e : display_ev e = true -> loop_ev e = true.
Proof. now destruct e. Qed.

Lemma display_step_only self f it :
  only display_ev (AssistiveAI.display_step self f it).
Proof.
  unfold AssistiveAI.display_step.
  only_go.
  apply (only_weaken speech_ev); [now intros [] | apply speak_only].
Qed.

Lemma step_loop e : step_ev e = true -> loop_ev e = true.
Proof. now destruct e. Qed.

Lemma analysis_step_only self last f it :
  only step_ev (AssistiveAI.analysis_step self last f it).
Proof.
  unfold AssistiveAI.analysis_step.
  only_go.
  apply (only_weaken analysis_ev);
    [now intros [] | apply analyze_and_speak_only].
Qed.

Lemma loop_body_only self last it :
  only loop_ev (AssistiveAI.loop_body self last it).
Proof.
  unfold AssistiveAI.loop_body.
  only_go.
  - apply (only_weaken step_ev);
      [exact step_loop | apply analysis_step_only].
  - apply (only_weaken display_ev);
      [exact display_loop | apply display_step_only].
Qed.

Lemma poll_loop_only self script :
  forall last, only loop_ev (AssistiveAI.poll_loop self last script).
Proof.
  induction script as [|it rest IH]; intro last; simpl.
  - apply only_nil.
  - apply only_bind; [apply loop_body_only|].
    intros [|last']; [apply only_nil | apply IH].
Qed.

(** [sample_app] is what the constructor builds when the speech engine
    starts. *)
Example sample_app_constructed :
  AssistiveAI.__init__ 0 3 boot_fine
  = ([EvTtsInit; EvSetProperty (lit "rate") 170;
      EvGenerativeModel (lit "gemini-2.5-flash")],
     Done sample_app).
Proof. reflexivity. Qed.

(** ** The rate limit of the polling loop *)

Lemma dispatch_times_app tr1 tr2 :
  dispatch_times (tr1 ++ tr2) = dispatch_times tr1 ++ dispatch_times tr2.
Proof.
  induction tr1 as [|e tr1 IH]; simpl; auto.
  destruct e; simpl; now rewrite ?IH.
Qed.

Lemma dispatch_quiet p {A} (m : M A) :
  (forall e, p e = true -> is_dispatch e = false) ->
  only p m -> dispatch_times (trace m) = [].
Proof.
  unfold only. intros Hp.
  induction 1 as [|e tr He _ IH]; simpl; auto.
  apply Hp in He. destruct e; simpl in *; auto; discriminate.
Qed.

Lemma analysis_quiet e : analysis_ev e = true -> is_dispatch e = false.
Proof. now destruct e. Qed.

Lemma display_quiet e : display_ev e = true -> is_dispatch e = false.
Proof. now destruct e. Qed.

Lemma speech_quiet e : speech_ev e = true -> is_dispatch e = false.
Proof. now destruct e. Qed.

Lemma console_quiet e : console_ev e = true -> is_dispatch e = false.
Proof. now destruct e. Qed.

(** The dispatch decision of one pass: a dispatch happens exactly when the
    clock reading is at least [interval] after [last_analysis], and it is
    stamped with that reading, which becomes the new [last_analysis]. *)
Lemma analysis_step_dispatch self last f it :
  let due := Qle_bool (AssistiveAI.interval self) (it_time it - last) in
  dispatch_times (trace (AssistiveAI.analysis_step self last f it))
  = (if due then [it_time it] else [])
  /\ forall last',
      outcome_of (AssistiveAI.analysis_step self last f it) = Done last' ->
      last' = if due then it_time it else last.
Proof.
  unfold AssistiveAI.analysis_step.
  rewrite trace_bind, outcome_bind, outcome_call, trace_call.
  cbv beta iota zeta.
  destruct (Qle_bool _ _).
  - rewrite !trace_bind, !outcome_bind. simpl.
    rewrite dispatch_times_app.
    rewrite (dispatch_quiet analysis_ev);
      [| exact analysis_quiet | apply analyze_and_speak_only].
    split.
    + now destruct (outcome_of (AssistiveAI._analyze_and_speak self f it)).
    + intro last'.
      destruct (outcome_of (AssistiveAI._analyze_and_speak self f it));
        simpl; congruence.
  - simpl. split; auto. congruence.
Qed.

Lemma loop_body_dispatch self last it :
  let dts := dispatch_times (trace (AssistiveAI.loop_body self last it)) in
  spaced (AssistiveAI.interval self) last dts
  /\ forall last',
      outcome_of (AssistiveAI.loop_body self last it) = Done (Continue last') ->
      last' = last_reading last dts.
Proof.
  unfold AssistiveAI.loop_body.
  rewrite trace_bind, outcome_bind, outcome_call, trace_call.
  destruct (it_read it) as [[f|]|e]; simpl.
  - rewrite !trace_bind, !outcome_bind, !dispatch_times_app.
    destruct (analysis_step_dispatch self last f it) as [Hdts Hlast].
    rewrite Hdts.
    assert (Hsp : spaced (AssistiveAI.interval self) last
                    (if Qle_bool (AssistiveAI.interval self)
                                 (it_time it - last)
                     then [it_time it] else [])).
    { destruct (Qle_bool _ _) eqn:Hdue; simpl; auto.
      apply Qle_bool_iff in Hdue. tauto. }
    destruct (outcome_of (AssistiveAI.analysis_step self last f it))
      as [l'| |] eqn:E;
      [| simpl; rewrite app_nil_r; split; [exact Hsp | discriminate] ..].
    rewrite trace_bind, outcome_bind, dispatch_times_app.
    rewrite (dispatch_quiet display_ev);
      [| exact display_quiet | apply display_step_only].
    specialize (Hlast _ eq_refl). subst l'.
    replace (dispatch_times
               match outcome_of (AssistiveAI.display_step self f it) with
               | Done a =>
                   trace (ret (if a
                               then Break
                               else Continue
                                      (if Qle_bool (AssistiveAI.interval self)
                                                   (it_time it - last)
                                       then it_time it else last)))
               | _ => []
               end) with (@nil Q)
      by now destruct (outcome_of (AssistiveAI.display_step self f it)).
    simpl. rewrite app_nil_r. split; [exact Hsp|].
    intro last'.
    destruct (outcome_of (AssistiveAI.display_step self f it)) as [[]| |];
      simpl; try discriminate.
    intro H. injection H as <-.
    now destruct (Qle_bool _ _).
  - split; [exact I | discriminate].
  - split; [exact I | discriminate].
Qed.

Lemma spaced_app i a l1 l2 :
  spaced i a l1 -> spaced i (last_reading a l1) l2 -> spaced i a (l1 ++ l2).
Proof.
  revert a. induction l1 as [|t l1 IH]; intros a H1 H2.
  - exact H2.
  - destruct H1 as [Ht H1]. split; [exact Ht|].
    apply IH; [exact H1 | exact H2].
Qed.

Lemma poll_loop_spaced self script :
  forall last,
    spaced (AssistiveAI.interval self) last
           (dispatch_times (trace (AssistiveAI.poll_loop self last script))).
Proof.
  induction script as [|it rest IH]; intro last; simpl AssistiveAI.poll_loop.
  - exact I.
  - rewrite trace_bind, dispatch_times_app.
    destruct (loop_body_dispatch self last it) as [Hs Hl].
    apply spaced_app; [exact Hs|].
    destruct (outcome_of (AssistiveAI.loop_body self last it))
      as [[|last']| |]; try exact I.
    rewrite <- (Hl _ eq_refl). apply IH.
Qed.

(** With a non-negative interval, every later reading of a spaced list is
    at least the interval after the start. *)
Lemma spaced_In i a l t :
  0 <= i -> spaced i a l -> In t l -> i <= t - a.
Proof.
  intro Hi. revert a.
  induction l as [|u l IH]; intros a Hs Hin; [contradiction|].
  destruct Hs as [Hu Hs]. destruct Hin as [<-|Hin]; [exact Hu|].
  specialize (IH _ Hs Hin). lra.
Qed.

Lemma spaced_pair i a pre t1 mid t2 post :
  0 <= i -> spaced i a (pre ++ t1 :: mid ++ t2 :: post) -> i <= t2 - t1.
Proof.
  intro Hi. revert a.
  induction pre as [|u pre IH]; intros a Hs.
  - destruct Hs as [_ Hs].
    apply (spaced_In i t1 (mid ++ t2 :: post)); auto.
    apply in_or_app. right. now left.
  - destruct Hs as [_ Hs]. exact (IH _ Hs).
Qed.

Lemma announce_only self w :
  only console_ev (AssistiveAI.announce self w).
Proof.
  unfold AssistiveAI.announce. only_go.
  apply (only_weaken speech_ev); [now intros [] | apply speak_only].
Qed.

Lemma guarded_loop_only self w :
  only session_ev (AssistiveAI.guarded_loop self w).
Proof.
  unfold AssistiveAI.guarded_loop. only_go.
  - apply (only_weaken loop_ev); [now intros [] | apply poll_loop_only].
  - apply (only_weaken speech_ev); [now intros [] | apply speak_only].
Qed.

Lemma cleanup_trace_eq self c :
  AssistiveAI.cleanup (AssistiveAI.set_cap self (Some c))
  = (cleanup_trace, Done tt).
Proof. reflexivity. Qed.

(** The shape of a run of [start]: the camera is opened; when that fails
    the run ends there, otherwise the announcement, the guarded loop and,
    once the loop is left, the [finally] block follow. *)
Lemma start_shape self w :
  let self' := AssistiveAI.set_cap self (Some (AssistiveAI.camera_id self)) in
  AssistiveAI.start self w
  = if ses_opened w then
      bind (tell (EvVideoCapture (AssistiveAI.camera_id self)))
           (fun _ =>
              bind (tell EvIsOpened)
                   (fun _ =>
                      bind (AssistiveAI.announce self' w)
                           (fun _ =>
                              try_finally (AssistiveAI.guarded_loop self' w)
                                          (AssistiveAI.cleanup self'))))
    else ([EvVideoCapture (AssistiveAI.camera_id self); EvIsOpened;
           EvPrint (lit "[ERROR] Could not open webcam.")], Done tt).
Proof.
  unfold AssistiveAI.start. destruct (ses_opened w); reflexivity.
Qed.

Lemma start_dispatch_spaced self w :
  spaced (AssistiveAI.interval self) 0
         (dispatch_times (trace (AssistiveAI.start self w))).
Proof.
  rewrite start_shape. cbv zeta.
  destruct (ses_opened w); [|exact I].
  steps. rewrite !dispatch_times_app.
  rewrite (dispatch_quiet console_ev);
    [| exact console_quiet | apply announce_only].
  destruct (outcome_of (AssistiveAI.announce _ w)); try exact I.
  simpl app.
  rewrite trace_try_finally, dispatch_times_app.
  replace (dispatch_times
             match outcome_of (AssistiveAI.guarded_loop
                                 (AssistiveAI.set_cap self
                                    (Some (AssistiveAI.camera_id self))) w) with
             | Blocked => []
             | _ => trace (AssistiveAI.cleanup
                             (AssistiveAI.set_cap self
                                (Some (AssistiveAI.camera_id self))))
             end) with (@nil Q)
    by now destruct (outcome_of (AssistiveAI.guarded_loop _ w)).
  unfold AssistiveAI.guarded_loop.
  rewrite trace_try_except, dispatch_times_app.
  match goal with
  | |- spaced _ _ ((_ ++ dispatch_times ?x) ++ _) =>
      replace (dispatch_times x) with (@nil Q)
  end.
  - simpl. rewrite !app_nil_r.
    apply (poll_loop_spaced
             (AssistiveAI.set_cap self (Some (AssistiveAI.camera_id self)))).
  - destruct (outcome_of (AssistiveAI.poll_loop _ _ _)) as [|e|]; auto.
    destruct (is_KeyboardInterrupt e); auto.
    steps. rewrite ?dispatch_times_app.
    rewrite (dispatch_quiet speech_ev);
      [reflexivity | exact speech_quiet | apply speak_only].
Qed.

(** C1.  For every interval [I > 0] and every run of [AssistiveAI.start],
    whatever the camera, the clock, the remote model, the speech engine and
    the keyboard answer: any two entries into [_analyze_and_speak] of the
    run are stamped with clock readings at least [I] apart.  The stamp of a
    dispatch is the reading taken just before it starts (the value stored in
    [last_analysis]), not a reading taken when it completes; the number of
    frames read in between and the success or failure of the earlier
    analysis do not matter. *)
Theorem dispatches_at_least_interval_apart :
  forall (self : AssistiveAI.t) (w : session)
         (pre : list event) (t1 : Q) (mid : list event) (t2 : Q)
         (post : list event),
    0 < AssistiveAI.interval self ->
    trace (AssistiveAI.start self w)
    = pre ++ EvDispatch t1 :: mid ++ EvDispatch t2 :: post ->
    AssistiveAI.interval self <= t2 - t1.
Proof.
  intros self w pre t1 mid t2 post HI Htr.
  pose proof (start_dispatch_spaced self w) as Hs.
  rewrite Htr in Hs.
  rewrite dispatch_times_app in Hs. simpl in Hs.
  rewrite dispatch_times_app in Hs. simpl in Hs.
  apply (spaced_pair _ _ _ _ _ _ _ (Qlt_le_weak _ _ HI) Hs).
Qed.

Lemma dispatches_at_least_interval_apart_witness :
  0 < AssistiveAI.interval sample_app
  /\ AssistiveAI.interval sample_app <= 103 - 100.
Proof.
  split; [reflexivity|].
  apply (dispatches_at_least_interval_apart sample_app sample_session
           (firstn 12 (trace (AssistiveAI.start sample_app sample_session)))
           100
           (firstn 15
              (skipn 13 (trace (AssistiveAI.start sample_app sample_session))))
           103
           (skipn 29 (trace (AssistiveAI.start sample_app sample_session)))).
  - reflexivity.
  - vm_compute. reflexivity.
Defined.

(** ** Cleanup on the exit paths of [start] *)

Lemma count_ev_app p tr1 tr2 :
  count_ev p (tr1 ++ tr2) = (count_ev p tr1 + count_ev p tr2)%nat.
Proof. unfold count_ev. now rewrite filter_app, length_app. Qed.

Lemma count_quiet (p q : event -> bool) tr :
  (forall e, q e = true -> p e = false) ->
  Forall (fun e => q e = true) tr -> count_ev p tr = 0%nat.
Proof.
  intros Hq. unfold count_ev.
  induction 1 as [|e tr He _ IH]; simpl; auto.
  now rewrite (Hq _ He).
Qed.

Lemma only_not_In (p : event -> bool) {A} (m : M A) ev :
  only p m -> p ev = false -> ~ In ev (trace m).
Proof.
  unfold only. intros Hm Hev Hin.
  rewrite Forall_forall in Hm. apply Hm in Hin. congruence.
Qed.

(** A run of [start] that read (or tried to read) a frame and has ended
    went through the [finally] block: its trace is the events before it,
    none of which releases the camera or closes the display, followed by
    the events of [cleanup]. *)
Lemma start_exit_shape self w :
  In EvRead (trace (AssistiveAI.start self w)) ->
  exited (AssistiveAI.start self w) ->
  exists pre,
    trace (AssistiveAI.start self w) = pre ++ cleanup_trace
    /\ count_ev is_cleanup pre = 0%nat
    /\ count_ev is_release pre = 0%nat
    /\ count_ev is_destroy pre = 0%nat.
Proof.
  unfold exited. rewrite start_shape. cbv zeta.
  set (self' := AssistiveAI.set_cap self (Some (AssistiveAI.camera_id self))).
  destruct (ses_opened w).
  2:{ simpl. intros [H|[H|[H|[]]]]; discriminate. }
  steps.
  pose proof (announce_only self' w) as Hann.
  pose proof (guarded_loop_only self' w) as Hloop.
  destruct (outcome_of (AssistiveAI.announce self' w)) eqn:Ea.
  - rewrite trace_try_finally, outcome_try_finally.
    destruct (outcome_of (AssistiveAI.guarded_loop self' w)) eqn:El;
      [ | | intros _ H; now elim H ]; intros _ _;
      (exists ([EvVideoCapture (AssistiveAI.camera_id self); EvIsOpened]
               ++ trace (AssistiveAI.announce self' w)
               ++ trace (AssistiveAI.guarded_loop self' w)));
      (split; [unfold self'; rewrite cleanup_trace_eq; simpl;
               now rewrite <- !app_assoc |]);
      rewrite !count_ev_app;
      rewrite !(count_quiet _ session_ev (trace (AssistiveAI.guarded_loop self' w)));
      try exact Hloop; try (now intros []);
      rewrite !(count_quiet _ console_ev (trace (AssistiveAI.announce self' w)));
      try exact Hann; try (now intros []);
      auto.
  - intros Hin _. exfalso. rewrite app_nil_r in Hin.
    apply in_app_or in Hin. destruct Hin as [[H|[]]|Hin]; [discriminate|].
    apply in_app_or in Hin. destruct Hin as [[H|[]]|Hin]; [discriminate|].
    revert Hin. apply (only_not_In console_ev); auto.
  - intros _ H. now elim H.
Qed.

Lemma In_read tr : existsb is_read tr = true -> In EvRead tr.
Proof.
  intro H. apply existsb_exists in H. destruct H as [e [Hin He]].
  destruct e; try discriminate. exact Hin.
Qed.

(** The claim as the specification states it fails on the camera-open
    failure path: [start] returns, and nothing was released, closed or
    printed as a banner. *)
Lemma camera_open_failure_skips_cleanup :
  exited (AssistiveAI.start sample_app no_camera)
  /\ ~ cleaned_up_once (trace (AssistiveAI.start sample_app no_camera)).
Proof.
  split.
  - discriminate.
  - intros [H _]. discriminate H.
Qed.

(** C2, amended.  Every run of [AssistiveAI.start] that reached the polling
    loop and has ended, whether by the quit key, a failed frame read, a
    keyboard interruption or any other exception raised in the loop, went
    through [cleanup]: the trace ends with the events of [cleanup] (camera
    released, display closed, shutdown banner printed) and nothing before
    them releases the camera or closes the display, so each happens exactly
    once.  When the camera cannot be opened, [start] returns before the
    loop and [cleanup] is not called. *)
Theorem loop_exits_clean_up_exactly_once :
  (forall (self : AssistiveAI.t) (w : session),
      In EvRead (trace (AssistiveAI.start self w)) ->
      exited (AssistiveAI.start self w) ->
      cleaned_up_once (trace (AssistiveAI.start self w))
      /\ exists pre,
          trace (AssistiveAI.start self w) = pre ++ cleanup_trace
          /\ count_ev is_cleanup pre = 0%nat)
  /\ (forall (self : AssistiveAI.t) (w : session),
         ses_opened w = false ->
         outcome_of (AssistiveAI.start self w) = Done tt
         /\ count_ev is_cleanup (trace (AssistiveAI.start self w)) = 0%nat).
Proof.
  split.
  - intros self w Hin Hex.
    destruct (start_exit_shape self w Hin Hex) as [pre [Htr [Hc [Hr Hd]]]].
    split; [|now exists pre].
    rewrite Htr. unfold cleaned_up_once. rewrite !count_ev_app, Hr, Hd.
    repeat split; try reflexivity.
    apply in_or_app. right. simpl. tauto.
  - intros self w Hop. rewrite start_shape, Hop. split; reflexivity.
Qed.

Lemma loop_exits_clean_up_exactly_once_witness :
  In EvRead (trace (AssistiveAI.start sample_app sample_session))
  /\ exited (AssistiveAI.start sample_app sample_session)
  /\ cleaned_up_once (trace (AssistiveAI.start sample_app sample_session)).
Proof.
  assert (Hin : In EvRead (trace (AssistiveAI.start sample_app sample_session)))
    by (apply In_read; reflexivity).
  assert (Hex : exited (AssistiveAI.start sample_app sample_session))
    by discriminate.
  split; [exact Hin|]. split; [exact Hex|].
  exact (proj1 (proj1 loop_exits_clean_up_exactly_once
                      sample_app sample_session Hin Hex)).
Defined.

(** The three ways out of the loop, run on sample sessions. *)
Example quit_key_exit :
  outcome_of (AssistiveAI.start sample_app sample_session) = Done tt
  /\ count_ev is_read (trace (AssistiveAI.start sample_app sample_session))
     = 4%nat.
Proof. split; reflexivity. Qed.

Example read_failure_exit :
  outcome_of (AssistiveAI.start sample_app
                (session_of [pass 100 (-1) network_down; read_failure]))
  = Done tt.
Proof. reflexivity. Qed.

Example interruption_exit :
  outcome_of (AssistiveAI.start sample_app
                (session_of [pass 100 (-1) network_down; interrupted 101]))
  = Done tt
  /\ In (EvSay (lit "System interrupted."))
        (trace (AssistiveAI.start sample_app
                  (session_of [pass 100 (-1) network_down; interrupted 101]))).
Proof.
  split; [reflexivity|].
  vm_compute. repeat (try (left; reflexivity); right).
Qed.

(** ** [ObstacleDetector.analyze_frame] *)

Lemma lstrip_spec s :
  exists l,
    s = l ++ lstrip s
    /\ forallb py_isspace l = true
    /\ (forall c t, lstrip s = c :: t -> py_isspace c = false).
Proof.
  induction s as [|c s [l [Hs [Hl Hh]]]].
  - exists []. repeat split; auto. discriminate.
  - simpl. destruct (py_isspace c) eqn:Hc.
    + exists (c :: l). simpl. rewrite Hc, Hl. repeat split; auto.
      now rewrite <- Hs.
    + exists []. repeat split; auto. intros c' t H. now injection H as <- _.
Qed.

Lemma rstrip_spec s :
  exists r,
    s = rstrip s ++ r
    /\ forallb py_isspace r = true
    /\ (forall t c, rstrip s = t ++ [c] -> py_isspace c = false).
Proof.
  unfold rstrip.
  destruct (lstrip_spec (rev s)) as [l [Hs [Hl Hh]]].
  exists (rev l). repeat split.
  - rewrite <- rev_app_distr, <- Hs. now rewrite rev_involutive.
  - rewrite forallb_forall in *. intros x Hx. apply Hl. now apply in_rev.
  - intros t c H. apply (Hh c (rev t)).
    rewrite <- (rev_involutive (lstrip (rev s))), H.
    now rewrite rev_app_distr.
Qed.

(** [strip] removes a run of whitespace at each end and leaves no
    whitespace at either end. *)
Lemma strip_spec s :
  exists l r,
    s = l ++ strip s ++ r
    /\ forallb py_isspace l = true
    /\ forallb py_isspace r = true
    /\ (forall c t, strip s = c :: t -> py_isspace c = false)
    /\ (forall t c, strip s = t ++ [c] -> py_isspace c = false).
Proof.
  unfold strip.
  destruct (lstrip_spec s) as [l [Hs [Hl Hh]]].
  destruct (rstrip_spec (lstrip s)) as [r [Hs' [Hr Ht]]].
  exists l, r. repeat split; auto.
  - now rewrite <- Hs'.
  - intros c t H. rewrite H in Hs'. exact (Hh c (t ++ r) Hs').
Qed.

(** The claim as the specification states it names a sentinel string the
    code never returns: on an empty text the result is the string of the
    source. *)
Lemma sentinel_differs_from_specification :
  outcome_of (ObstacleDetector.analyze_frame sample_detector (Frame 1)
                (answers []))
  = Done (lit "No clear response from AI.")
  /\ outcome_of (ObstacleDetector.analyze_frame sample_detector (Frame 1)
                   (answers []))
     <> Done (lit "no clear response from the system").
Proof. split; [reflexivity | discriminate]. Qed.

(** C3, amended.  For every frame that encodes and every remote response:
    when the response has a non-empty text, [analyze_frame] returns that
    text stripped of the whitespace at both ends; when the text is absent,
    [None] or empty, it returns the fixed string
    ["No clear response from AI."] and does not raise. *)
Theorem analyze_frame_text_or_sentinel :
  forall (self : ObstacleDetector.t) (f : frame) (image_bytes : list N)
         (r : response),
    outcome_of (ObstacleDetector.analyze_frame self f
                  {| an_imencode := Returns (Some image_bytes);
                     an_generate := Returns r |})
    = match text r with
      | AttrValue (Some (c :: s)) => Done (strip (c :: s))
      | AttrValue (Some []) | AttrValue None | AttrAbsent =>
          Done (lit "No clear response from AI.")
      | AttrRaises e =>
          match exn_cls e with
          | AttributeError => Done (lit "No clear response from AI.")
          | _ => Raised e
          end
      end
    /\ forall s,
        exists l t,
          s = l ++ strip s ++ t
          /\ forallb py_isspace l = true
          /\ forallb py_isspace t = true
          /\ (forall c u, strip s = c :: u -> py_isspace c = false)
          /\ (forall u c, strip s = u ++ [c] -> py_isspace c = false).
Proof.
  intros self f image_bytes r. split; [|exact strip_spec].
  unfold ObstacleDetector.analyze_frame, hasattr_text, get_text.
  destruct r as [[|[[|c s]|]|[[] msg]]]; reflexivity.
Qed.

Lemma analyze_frame_text_or_sentinel_witness :
  outcome_of (ObstacleDetector.analyze_frame sample_detector (Frame 1)
                (answers (32 :: lit "Clear path ahead" ++ [32; 10])%N))
  = Done (lit "Clear path ahead")
  /\ py_isspace 67 = false.
Proof.
  split.
  - exact (proj1 (analyze_frame_text_or_sentinel sample_detector (Frame 1)
                    [255; 216; 255]%N
                    {| text := AttrValue
                                 (Some (32 :: lit "Clear path ahead"
                                           ++ [32; 10])%N) |})).
  - destruct (proj2 (analyze_frame_text_or_sentinel sample_detector (Frame 1)
                       [] {| text := AttrAbsent |})
                    (32 :: lit "Clear path ahead")%N)
      as [l [t [_ [_ [_ [Hhead _]]]]]].
    exact (Hhead 67%N (lit "lear path ahead") eq_refl).
Defined.

(** The claim as the specification states it names an exception the code
    does not raise: the class is [ValueError] and the message starts with a
    capital letter. *)
Lemma encoding_error_differs_from_specification :
  outcome_of (ObstacleDetector.analyze_frame sample_detector (Frame 1)
                {| an_imencode := Returns None;
                   an_generate := Returns {| text := AttrAbsent |} |})
  = Raised (Exn ValueError (lit "Failed to encode frame"))
  /\ outcome_of (ObstacleDetector.analyze_frame sample_detector (Frame 1)
                   {| an_imencode := Returns None;
                      an_generate := Returns {| text := AttrAbsent |} |})
     <> Raised (Exn (OtherException "EncodingError")
                    (lit "failed to encode frame"))
  /\ lit "Failed to encode frame" <> lit "failed to encode frame".
Proof. repeat split; try reflexivity; discriminate. Qed.

(** ** Failures of one analysis cycle *)

(** [speak] returns normally unless the speech engine throws something
    outside [Exception]. *)
Lemma speak_done self txt pt o :
  tts_ok o = true -> outcome_of (Speaker.speak self txt pt o) = Done tt.
Proof.
  unfold tts_ok, Speaker.speak. intro H.
  apply andb_prop in H. destruct H as [Hs Hr].
  destruct pt, (Speaker.enabled self), (Speaker.has_engine self);
    try reflexivity;
    destruct (say_result o) as [[]|es], (run_result o) as [[]|er];
    simpl in *; unfold try_except, outcome_of; simpl;
    rewrite ?Hs, ?Hr; reflexivity.
Qed.

(** Under [analysis_ok], [analyze_frame] returns or raises something
    [except Exception] catches. *)
Lemma analyze_frame_outcome self f o :
  analysis_ok o = true ->
  match outcome_of (ObstacleDetector.analyze_frame self f o) with
  | Done _ => True
  | Raised e => is_Exception e = true
  | Blocked => False
  end.
Proof.
  unfold analysis_ok, ObstacleDetector.analyze_frame, hasattr_text, get_text.
  destruct o as [[[bytes|]|ei] [[[|[[|c s]|]|[[] msg]]]|e]]; simpl;
    intro H; auto; discriminate.
Qed.

(** An exception of the analysis that [except Exception] catches is logged
    and answered with the spoken error phrase. *)
Lemma analyze_and_speak_failure self f it e :
  outcome_of (ObstacleDetector.analyze_frame (AssistiveAI.detector self) f
                (it_analysis it)) = Raised e ->
  is_Exception e = true ->
  trace (AssistiveAI._analyze_and_speak self f it)
  = EvPrint (10%N :: lit "[ANALYZING] Processing frame...")
    :: trace (ObstacleDetector.analyze_frame (AssistiveAI.detector self) f
                (it_analysis it))
    ++ EvPrint (lit "[WARNING] Analysis error: " ++ exn_msg e)
    :: trace (Speaker.speak (AssistiveAI.speaker self)
                (lit "Error analyzing the scene.")
                Speaker.print_text_default (it_tts_error it))
  /\ outcome_of (AssistiveAI._analyze_and_speak self f it)
     = outcome_of (Speaker.speak (AssistiveAI.speaker self)
                     (lit "Error analyzing the scene.")
                     Speaker.print_text_default (it_tts_error it)).
Proof.
  intros Hraise Hexc. unfold AssistiveAI._analyze_and_speak.
  rewrite trace_try_except, outcome_try_except.
  steps. rewrite Hraise, Hexc. steps.
  rewrite app_nil_r. split; [|reflexivity].
  now rewrite <- app_assoc.
Qed.

(** When [analyze_frame] ends after [cv2.imencode] with an exception, the
    whole cycle makes no remote call. *)
Lemma no_remote_after_encode_failure self f it e :
  ObstacleDetector.analyze_frame (AssistiveAI.detector self) f (it_analysis it)
  = ([EvImencode (lit ".jpg") f], Raised e) ->
  count_ev is_remote (trace (AssistiveAI._analyze_and_speak self f it))
  = 0%nat.
Proof.
  intro Hraise.
  apply (count_quiet is_remote (fun ev => negb (is_remote ev)));
    [intros ev Hev; now apply negb_true_iff|].
  change (only (fun ev => negb (is_remote ev))
               (AssistiveAI._analyze_and_speak self f it)).
  unfold AssistiveAI._analyze_and_speak.
  only_go;
    first [ rewrite Hraise; apply only_one; reflexivity
          | apply (only_weaken speech_ev);
            [now intros [] | apply speak_only] ].
Qed.

(** C4, amended.  A frame can fail to encode in two ways.  When
    [cv2.imencode] reports failure (its success flag is false),
    [analyze_frame] raises [ValueError("Failed to encode frame")]; when
    [cv2.imencode] itself raises (as it does on an empty frame), that
    exception leaves [analyze_frame] unchanged.  In both cases
    [cv2.imencode] is the only external call made, so no remote inference
    call is attempted, and the exception reaches the caller:
    [_analyze_and_speak] logs it with its message when [except Exception]
    covers it, and no remote call happens in the whole cycle. *)
Theorem analyze_frame_encode_failure :
  forall (self : AssistiveAI.t) (f : frame) (it : iteration),
    (an_imencode (it_analysis it) = Returns None ->
     ObstacleDetector.analyze_frame (AssistiveAI.detector self) f
       (it_analysis it)
     = ([EvImencode (lit ".jpg") f],
        Raised (Exn ValueError (lit "Failed to encode frame")))
     /\ In (EvPrint (lit "[WARNING] Analysis error: Failed to encode frame"))
           (trace (AssistiveAI._analyze_and_speak self f it))
     /\ count_ev is_remote (trace (AssistiveAI._analyze_and_speak self f it))
        = 0%nat)
    /\ (forall e : exn,
           an_imencode (it_analysis it) = Throws e ->
           ObstacleDetector.analyze_frame (AssistiveAI.detector self) f
             (it_analysis it)
           = ([EvImencode (lit ".jpg") f], Raised e)
           /\ (is_Exception e = true ->
               In (EvPrint (lit "[WARNING] Analysis error: " ++ exn_msg e))
                  (trace (AssistiveAI._analyze_and_speak self f it)))
           /\ count_ev is_remote
                (trace (AssistiveAI._analyze_and_speak self f it))
              = 0%nat).
Proof.
  intros self f it.
  assert (Hlog : forall e,
             ObstacleDetector.analyze_frame (AssistiveAI.detector self) f
               (it_analysis it)
             = ([EvImencode (lit ".jpg") f], Raised e) ->
             is_Exception e = true ->
             In (EvPrint (lit "[WARNING] Analysis error: " ++ exn_msg e))
                (trace (AssistiveAI._analyze_and_speak self f it))).
  { intros e Hraise He.
    destruct (analyze_and_speak_failure self f it e) as [Htr _];
      [now rewrite Hraise | exact He |].
    rewrite Htr, Hraise. right. right. now left. }
  split.
  - intro Henc.
    assert (Hraise : ObstacleDetector.analyze_frame
                       (AssistiveAI.detector self) f (it_analysis it)
                     = ([EvImencode (lit ".jpg") f],
                        Raised (Exn ValueError
                                    (lit "Failed to encode frame")))).
    { unfold ObstacleDetector.analyze_frame. now rewrite Henc. }
    split; [exact Hraise|]. split.
    + exact (Hlog _ Hraise eq_refl).
    + exact (no_remote_after_encode_failure self f it _ Hraise).
  - intros e Henc.
    assert (Hraise : ObstacleDetector.analyze_frame
                       (AssistiveAI.detector self) f (it_analysis it)
                     = ([EvImencode (lit ".jpg") f], Raised e)).
    { unfold ObstacleDetector.analyze_frame. now rewrite Henc. }
    split; [exact Hraise|]. split.
    + exact (Hlog _ Hraise).
    + exact (no_remote_after_encode_failure self f it _ Hraise).
Qed.

Lemma analyze_frame_encode_failure_witness :
  (an_imencode (it_analysis
                  (pass 100 (-1)
                        {| an_imencode := Returns None;
                           an_generate := an_generate network_down |}))
   = Returns None
   /\ count_ev is_remote
        (trace (AssistiveAI._analyze_and_speak sample_app (Frame 1)
                  (pass 100 (-1)
                        {| an_imencode := Returns None;
                           an_generate := an_generate network_down |})))
      = 0%nat)
  /\ (an_imencode (it_analysis (pass 100 (-1) encoder_raises))
      = Throws (Exn (OtherException "cv2.error") (lit "empty frame"))
      /\ ObstacleDetector.analyze_frame (AssistiveAI.detector sample_app)
           (Frame 1) (it_analysis (pass 100 (-1) encoder_raises))
         = ([EvImencode (lit ".jpg") (Frame 1)],
            Raised (Exn (OtherException "cv2.error") (lit "empty frame")))).
Proof.
  split; (split; [reflexivity|]).
  - apply (proj1 (analyze_frame_encode_failure sample_app (Frame 1)
                    (pass 100 (-1)
                          {| an_imencode := Returns None;
                             an_generate := an_generate network_down |}))).
    reflexivity.
  - apply (proj2 (analyze_frame_encode_failure sample_app (Frame 1)
                    (pass 100 (-1) encoder_raises))
                 (Exn (OtherException "cv2.error") (lit "empty frame"))).
    reflexivity.
Defined.

Lemma analyze_and_speak_done self f it :
  analysis_ok (it_analysis it) = true ->
  tts_ok (it_tts it) = true ->
  tts_ok (it_tts_error it) = true ->
  outcome_of (AssistiveAI._analyze_and_speak self f it) = Done tt.
Proof.
  intros Ha Ht Hte.
  pose proof (analyze_frame_outcome (AssistiveAI.detector self) f _ Ha) as Ho.
  destruct (outcome_of (ObstacleDetector.analyze_frame
                          (AssistiveAI.detector self) f (it_analysis it)))
    as [res|e|] eqn:E; [| | contradiction].
  - unfold AssistiveAI._analyze_and_speak.
    rewrite outcome_try_except. steps. rewrite E. steps.
    now rewrite speak_done.
  - destruct (analyze_and_speak_failure self f it e E Ho) as [_ ->].
    now apply speak_done.
Qed.

Lemma live_loop_body self last it :
  live it = true ->
  exists last',
    outcome_of (AssistiveAI.loop_body self last it) = Done (Continue last')
    /\ count_ev is_read (trace (AssistiveAI.loop_body self last it)) = 1%nat.
Proof.
  unfold live.
  destruct (it_read it) as [[f|]|] eqn:Er; try discriminate.
  destruct (it_imshow it) as [[]|] eqn:Ei; try discriminate.
  destruct (it_waitKey it) as [key|] eqn:Ek; try discriminate.
  intro H.
  apply andb_prop in H. destruct H as [H Hte].
  apply andb_prop in H. destruct H as [H Ht].
  apply andb_prop in H. destruct H as [Hq Ha].
  apply negb_true_iff in Hq.
  assert (Hstep : exists last',
             outcome_of (AssistiveAI.analysis_step self last f it)
             = Done last').
  { unfold AssistiveAI.analysis_step. steps.
    destruct (Qle_bool _ _); steps; eauto.
    rewrite analyze_and_speak_done by assumption. steps. eauto. }
  destruct Hstep as [last' Hstep].
  assert (Hdisp : outcome_of (AssistiveAI.display_step self f it)
                  = Done false).
  { unfold AssistiveAI.display_step. steps. rewrite Ei, Ek. steps.
    now rewrite Hq. }
  exists last'. unfold AssistiveAI.loop_body. steps. rewrite Er. steps.
  rewrite Hstep. steps. rewrite Hdisp. steps. split; [reflexivity|].
  rewrite app_nil_r, !count_ev_app.
  rewrite (count_quiet is_read step_ev
             (trace (AssistiveAI.analysis_step self last f it)));
    [| now intros [] | apply analysis_step_only].
  rewrite (count_quiet is_read display_ev
             (trace (AssistiveAI.display_step self f it)));
    [| now intros [] | apply display_step_only].
  reflexivity.
Qed.

Lemma live_poll_loop self script :
  forallb live script = true ->
  forall last,
    outcome_of (AssistiveAI.poll_loop self last script) = Blocked
    /\ count_ev is_read (trace (AssistiveAI.poll_loop self last script))
       = List.length script.
Proof.
  induction script as [|it rest IH]; intros H last.
  - split; reflexivity.
  - simpl in H. apply andb_prop in H. destruct H as [Hit Hrest].
    destruct (live_loop_body self last it Hit) as [last' [Ho Hc]].
    destruct (IH Hrest last') as [IHo IHc].
    simpl AssistiveAI.poll_loop. steps. rewrite Ho. steps.
    rewrite count_ev_app, Hc, IHc. split; [exact IHo | reflexivity].
Qed.

(** C5.  An exception raised by [analyze_frame] that [except Exception]
    covers (the encoding error, a network or API error of the remote call,
    an error of a malformed response) is caught in [_analyze_and_speak]: the
    warning line with the message is printed, the fixed error phrase is
    spoken, and [_analyze_and_speak] ends as that [speak] ends, normally
    unless the playback itself is interrupted.  And the loop goes on: in a
    script of passes in which frames are read and shown, no quit key is
    pressed and nothing outside [Exception] is thrown, the loop runs every
    pass and is still running at the end of the script, whatever the
    analyses of the passes did. *)
Theorem analysis_failure_is_contained :
  (forall (self : AssistiveAI.t) (f : frame) (it : iteration) (e : exn),
      outcome_of (ObstacleDetector.analyze_frame (AssistiveAI.detector self) f
                    (it_analysis it)) = Raised e ->
      is_Exception e = true ->
      trace (AssistiveAI._analyze_and_speak self f it)
      = EvPrint (10%N :: lit "[ANALYZING] Processing frame...")
        :: trace (ObstacleDetector.analyze_frame (AssistiveAI.detector self) f
                    (it_analysis it))
        ++ EvPrint (lit "[WARNING] Analysis error: " ++ exn_msg e)
        :: trace (Speaker.speak (AssistiveAI.speaker self)
                    (lit "Error analyzing the scene.")
                    Speaker.print_text_default (it_tts_error it))
      /\ (tts_ok (it_tts_error it) = true ->
          outcome_of (AssistiveAI._analyze_and_speak self f it) = Done tt))
  /\ (forall (self : AssistiveAI.t) (last : Q) (script : list iteration),
         forallb live script = true ->
         outcome_of (AssistiveAI.poll_loop self last script) = Blocked
         /\ count_ev is_read (trace (AssistiveAI.poll_loop self last script))
            = List.length script).
Proof.
  split.
  - intros self f it e Hraise Hexc.
    destruct (analyze_and_speak_failure self f it e Hraise Hexc) as [Ht Ho].
    split; [exact Ht|].
    intro Hok. rewrite Ho. now apply speak_done.
  - intros self last script H. now apply live_poll_loop.
Qed.

Lemma analysis_failure_is_contained_witness :
  (outcome_of (ObstacleDetector.analyze_frame
                 (AssistiveAI.detector sample_app) (Frame 1) network_down)
   = Raised (Exn (OtherException "ConnectionError") (lit "unreachable"))
   /\ outcome_of (AssistiveAI._analyze_and_speak sample_app (Frame 1)
                    (pass 100 (-1) network_down)) = Done tt)
  /\ (forallb live [pass 100 (-1) network_down;
                    pass 103 (-1) {| an_imencode := Returns None;
                                     an_generate := an_generate network_down |}]
      = true
      /\ outcome_of (AssistiveAI.poll_loop sample_app 0
                       [pass 100 (-1) network_down;
                        pass 103 (-1)
                             {| an_imencode := Returns None;
                                an_generate := an_generate network_down |}])
         = Blocked).
Proof.
  split.
  - split; [reflexivity|].
    apply (proj1 analysis_failure_is_contained sample_app (Frame 1)
                 (pass 100 (-1) network_down)
                 (Exn (OtherException "ConnectionError") (lit "unreachable")));
      reflexivity.
  - split; [reflexivity|].
    apply (proj2 analysis_failure_is_contained sample_app 0). reflexivity.
Defined.

(** ** The credential at startup *)

(** The [or] chain of the source picks the first non-empty candidate. *)
Lemma API_KEY_first_nonempty h :
  match first_nonempty [getenv h "GEMINI_API_KEY"; getenv h "GOOGLE_API_KEY";
                        getenv h "OPENAI_API_KEY"] with
  | Some k => API_KEY h = Some k
  | None => truthy (API_KEY h) = false
  end.
Proof.
  unfold API_KEY, py_or, getenv. simpl.
  destruct (host_env h "GEMINI_API_KEY") as [[|c1 s1]|];
    destruct (host_env h "GOOGLE_API_KEY") as [[|c2 s2]|];
    destruct (host_env h "OPENAI_API_KEY") as [[|c3 s3]|];
    reflexivity.
Qed.

Lemma first_nonempty_cons l k :
  first_nonempty l = Some k -> exists c s, k = c :: s.
Proof.
  induction l as [|[[|c s]|] l IH]; simpl; intro H; try discriminate; auto.
  injection H as <-. eauto.
Qed.

Lemma module_init_only h :
  only (fun e => negb (is_construction e)) (module_init h).
Proof. unfold module_init. only_go. Qed.

(** C6.  The three credential variables are tried in the order
    GEMINI_API_KEY, GOOGLE_API_KEY, OPENAI_API_KEY.  When one of them has a
    non-empty value, the first such value is the credential handed to
    [genai.configure].  When none has, the program raises [ValueError] with
    the descriptive message, and up to then no camera, speaker or detector
    object was constructed: the camera is never opened. *)
Theorem credential_first_nonempty_or_refuse :
  forall (h : host) (o : tts_boot) (w : session),
    match first_nonempty [getenv h "GEMINI_API_KEY";
                          getenv h "GOOGLE_API_KEY";
                          getenv h "OPENAI_API_KEY"] with
    | Some k =>
        API_KEY h = Some k
        /\ outcome_of (module_init h) = Done k
        /\ In (EvConfigure k) (trace (module_init h))
    | None =>
        outcome_of (program h o w)
        = Raised (Exn ValueError missing_key_message)
        /\ count_ev is_construction (trace (program h o w)) = 0%nat
    end.
Proof.
  intros h o w.
  pose proof (API_KEY_first_nonempty h) as Hk.
  destruct (first_nonempty _) as [k|] eqn:Hf.
  - split; [exact Hk|].
    destruct (first_nonempty_cons _ _ Hf) as [c [s ->]].
    unfold module_init. rewrite Hk. split.
    + now destruct (host_win32 h), (host_dotenv h).
    + destruct (host_win32 h), (host_dotenv h); simpl; tauto.
  - assert (Hinit : outcome_of (module_init h)
                    = Raised (Exn ValueError missing_key_message)).
    { unfold module_init.
      destruct (API_KEY h) as [[|c s]|]; try discriminate;
        now destruct (host_win32 h), (host_dotenv h). }
    unfold program. steps. rewrite Hinit. split; [reflexivity|].
    rewrite app_nil_r.
    apply (count_quiet _ (fun e => negb (is_construction e))).
    + intros e He. now apply negb_true_iff.
    + apply module_init_only.
Qed.

Example credential_from_second_variable :
  let h := {| host_win32 := false; host_dotenv := true;
              host_env := fun name =>
                            if String.eqb name "GEMINI_API_KEY" then Some []
                            else if String.eqb name "GOOGLE_API_KEY"
                                 then Some (lit "g-key")
                                 else if String.eqb name "OPENAI_API_KEY"
                                      then Some (lit "o-key")
                                      else None |} in
  module_init h = ([EvLoadDotenv; EvConfigure (lit "g-key")],
                   Done (lit "g-key")).
Proof. reflexivity. Qed.

(** ** The speaker *)

(** C7.  When [pyttsx3.init()] throws an exception that [except Exception]
    covers, the constructor of [Speaker] still returns, with the speaker
    disabled, and every [speak(text)] on that speaker only prints the line
    ["AI: " + text]: no playback is attempted and nothing is raised.  On any
    speaker, a playback call that throws such an exception is caught: the
    line ["TTS Error: " + message] is printed last and [speak] returns
    normally. *)
Theorem speaker_degrades_to_console :
  (forall (rate : Z) (o : tts_boot) (e : exn),
      boot_init o = Throws e ->
      is_Exception e = true ->
      exists sp,
        outcome_of (Speaker.__init__ rate o) = Done sp
        /\ Speaker.enabled sp = false
        /\ forall (txt : pystr) (tts : tts_outcome),
            Speaker.speak sp txt Speaker.print_text_default tts
            = ([EvPrint (lit "AI: " ++ txt)], Done tt)
            /\ count_ev is_playback
                 (trace (Speaker.speak sp txt Speaker.print_text_default tts))
               = 0%nat)
  /\ (forall (sp : Speaker.t) (txt : pystr) (pt : bool) (tts : tts_outcome)
             (e : exn),
         Speaker.enabled sp = true ->
         Speaker.has_engine sp = true ->
         say_result tts = Throws e
         \/ (say_result tts = Returns tt /\ run_result tts = Throws e) ->
         is_Exception e = true ->
         outcome_of (Speaker.speak sp txt pt tts) = Done tt
         /\ exists pre,
             trace (Speaker.speak sp txt pt tts)
             = pre ++ [EvPrint (lit "TTS Error: " ++ exn_msg e)]).
Proof.
  split.
  - intros rate o e Hinit Hexc.
    exists {| Speaker.has_engine := false; Speaker.enabled := false |}.
    split; [|split; [reflexivity|]].
    + unfold Speaker.__init__. rewrite outcome_try_except. steps.
      rewrite Hinit, Hexc. reflexivity.
    + split; reflexivity.
  - intros sp txt pt tts e Hen Heng Hthrow Hexc.
    unfold Speaker.speak. rewrite Hen, Heng.
    destruct Hthrow as [Hs|[Hs Hr]].
    + split.
      * destruct pt; unfold try_except, outcome_of; simpl;
          rewrite Hs; simpl; now rewrite Hexc.
      * destruct pt;
          [exists [EvPrint (lit "AI: " ++ txt); EvSay txt] | exists [EvSay txt]];
          unfold try_except, trace; simpl; rewrite Hs; simpl;
          now rewrite Hexc.
    + split.
      * destruct pt; unfold try_except, outcome_of; simpl;
          rewrite Hs, Hr; simpl; now rewrite Hexc.
      * destruct pt;
          [exists [EvPrint (lit "AI: " ++ txt); EvSay txt; EvRunAndWait]
          | exists [EvSay txt; EvRunAndWait]];
          unfold try_except, trace; simpl; rewrite Hs, Hr; simpl;
          now rewrite Hexc.
Qed.

Lemma speaker_degrades_to_console_witness :
  (exists sp,
      outcome_of (Speaker.__init__ 170
                    {| boot_init :=
                         Throws (Exn (OtherException "RuntimeError")
                                     (lit "no driver"));
                       boot_setProperty := Returns tt |}) = Done sp
      /\ Speaker.enabled sp = false
      /\ forall (txt : pystr) (tts : tts_outcome),
          Speaker.speak sp txt Speaker.print_text_default tts
          = ([EvPrint (lit "AI: " ++ txt)], Done tt)
          /\ count_ev is_playback
               (trace (Speaker.speak sp txt Speaker.print_text_default tts))
             = 0%nat)
  /\ outcome_of (Speaker.speak sample_speaker (lit "Clear path ahead") true
                   {| say_result := Returns tt;
                      run_result :=
                        Throws (Exn (OtherException "RuntimeError")
                                    (lit "device busy")) |}) = Done tt.
Proof.
  split.
  - apply (proj1 speaker_degrades_to_console 170%Z _
                 (Exn (OtherException "RuntimeError") (lit "no driver")));
      reflexivity.
  - apply (proj2 speaker_degrades_to_console sample_speaker _ true _
                 (Exn (OtherException "RuntimeError") (lit "device busy")));
      try reflexivity.
    right. split; reflexivity.
Defined.

(** ** Opening the camera *)

(** C8.  When the camera cannot be opened, [start] constructs the capture
    once, asks whether it is open, prints the error line and returns: the
    loop is not entered, so no frame is read and no analysis is dispatched,
    and there is no second attempt to open the camera. *)
Theorem camera_open_failure_returns_at_once :
  forall (self : AssistiveAI.t) (w : session),
    ses_opened w = false ->
    AssistiveAI.start self w
    = ([EvVideoCapture (AssistiveAI.camera_id self); EvIsOpened;
        EvPrint (lit "[ERROR] Could not open webcam.")],
       Done tt)
    /\ count_ev is_read (trace (AssistiveAI.start self w)) = 0%nat
    /\ dispatch_times (trace (AssistiveAI.start self w)) = []
    /\ count_ev is_construction (trace (AssistiveAI.start self w)) = 1%nat.
Proof.
  intros self w Hopen.
  rewrite start_shape, Hopen.
  repeat split.
Qed.

Lemma camera_open_failure_returns_at_once_witness :
  ses_opened no_camera = false
  /\ AssistiveAI.start sample_app no_camera
     = ([EvVideoCapture 0; EvIsOpened;
         EvPrint (lit "[ERROR] Could not open webcam.")],
        Done tt).
Proof.
  split; [reflexivity|].
  exact (proj1 (camera_open_failure_returns_at_once sample_app no_camera
                  eq_refl)).
Defined.

(** ** The quit key *)

Lemma quit_key_low_byte key :
  AssistiveAI.quit_key key = true <-> (key mod 256 = ord "q")%Z.
Proof.
  unfold AssistiveAI.quit_key.
  change 255%Z with (Z.ones 8). rewrite Z.land_ones by lia.
  change (2 ^ 8)%Z with 256%Z. apply Z.eqb_eq.
Qed.

Lemma M_ext {A} (m : M A) t r :
  trace m = t -> outcome_of m = r -> m = (t, r).
Proof. destruct m. unfold trace, outcome_of. simpl. congruence. Qed.

(** C9.  Among the key codes of single characters only the code of the
    lowercase letter q is the quit signal; the uppercase Q is not.  When
    [waitKey] returns a quit signal after the frame was shown, the
    controller speaks the shutdown notice and, once it is spoken, leaves the
    loop: the passes that remain are not run.  On any other key the loop
    goes on with the next pass. *)
Theorem quit_key_is_lowercase_q :
  (forall key : Z,
      (0 <= key < 256)%Z ->
      AssistiveAI.quit_key key = true <-> key = ord "q")
  /\ AssistiveAI.quit_key (ord "Q") = false
  /\ (forall (self : AssistiveAI.t) (f : frame) (it : iteration) (key : Z),
         it_imshow it = Returns tt ->
         it_waitKey it = Returns key ->
         AssistiveAI.display_step self f it
         = if AssistiveAI.quit_key key then
             (EvImshow (lit "Assistive AI - Live Feed (Press Q to quit)") f
              :: EvWaitKey 1
              :: trace (Speaker.speak (AssistiveAI.speaker self)
                          (lit "Shutting down assistive AI system.")
                          Speaker.print_text_default (it_tts_quit it)),
              match outcome_of (Speaker.speak (AssistiveAI.speaker self)
                                  (lit "Shutting down assistive AI system.")
                                  Speaker.print_text_default (it_tts_quit it))
              with
              | Done _ => Done true
              | Raised e => Raised e
              | Blocked => Blocked
              end)
           else
             ([EvImshow (lit "Assistive AI - Live Feed (Press Q to quit)") f;
               EvWaitKey 1], Done false))
  /\ (forall (self : AssistiveAI.t) (last last' : Q) (f : frame)
             (it : iteration) (rest : list iteration) (stop : bool),
         it_read it = Returns (Some f) ->
         outcome_of (AssistiveAI.analysis_step self last f it) = Done last' ->
         outcome_of (AssistiveAI.display_step self f it) = Done stop ->
         AssistiveAI.poll_loop self last (it :: rest)
         = if stop then
             (EvRead :: trace (AssistiveAI.analysis_step self last f it)
                     ++ trace (AssistiveAI.display_step self f it),
              Done tt)
           else
             ((EvRead :: trace (AssistiveAI.analysis_step self last f it)
                      ++ trace (AssistiveAI.display_step self f it))
                ++ trace (AssistiveAI.poll_loop self last' rest),
              outcome_of (AssistiveAI.poll_loop self last' rest))).
Proof.
  split; [|split; [reflexivity|split]].
  - intros key Hk. rewrite quit_key_low_byte.
    now rewrite Z.mod_small by lia.
  - intros self f it key Hi Hk.
    destruct (AssistiveAI.quit_key key) eqn:Hq; apply M_ext;
      unfold AssistiveAI.display_step; steps; rewrite Hi, Hk; steps;
      rewrite Hq; steps; try reflexivity.
    destruct (outcome_of (Speaker.speak _ _ _ _)); now rewrite app_nil_r.
  - intros self last last' f it rest stop Hr Ha Hd.
    destruct stop; apply M_ext;
      simpl AssistiveAI.poll_loop; unfold AssistiveAI.loop_body;
      steps; rewrite Hr; steps; rewrite Ha; steps; rewrite Hd; steps;
      simpl; now rewrite ?app_nil_r, <- ?app_assoc.
Qed.

Lemma quit_key_is_lowercase_q_witness :
  (0 <= 113 < 256)%Z
  /\ AssistiveAI.quit_key 113 = true
  /\ outcome_of (AssistiveAI.poll_loop sample_app 0
                   [pass 100 113 network_down; pass 101 (-1) network_down])
     = Done tt.
Proof.
  split; [lia|]. split.
  - apply (proj1 quit_key_is_lowercase_q 113%Z); [lia | reflexivity].
  - rewrite (proj2 (proj2 (proj2 quit_key_is_lowercase_q))
               sample_app 0 100 (Frame 1) (pass 100 113 network_down)
               [pass 101 (-1) network_down] true);
      reflexivity.
Defined.

(** ** The console echo of [speak] *)

(** With [print_text=False] something can still be printed: the log line
    of a playback failure. *)
Lemma print_text_false_still_prints :
  trace (Speaker.speak sample_speaker (lit "Clear path ahead") false
           {| say_result :=
                Throws (Exn (OtherException "RuntimeError") (lit "device busy"));
              run_result := Returns tt |})
  = [EvSay (lit "Clear path ahead"); EvPrint (lit "TTS Error: device busy")]
  /\ count_ev is_print
       (trace (Speaker.speak sample_speaker (lit "Clear path ahead") false
                 {| say_result :=
                      Throws (Exn (OtherException "RuntimeError")
                                  (lit "device busy"));
                    run_result := Returns tt |}))
     <> 0%nat.
Proof. split; [reflexivity | discriminate]. Qed.

(** C10, amended.  The parameter [print_text] of [speak] defaults to
    [True].  With it the line ["AI: " + text] is printed first, and what
    follows is what [speak] does with [print_text=False].  With
    [print_text=False] the text is not echoed: the only line [speak] can
    print is the log line ["TTS Error: " + message] of a playback failure,
    and nothing is printed when the speaker is disabled or the playback
    succeeds. *)
Theorem print_text_controls_the_echo :
  Speaker.print_text_default = true
  /\ (forall (self : Speaker.t) (txt : pystr) (o : tts_outcome),
         trace (Speaker.speak self txt true o)
         = EvPrint (lit "AI: " ++ txt)
           :: trace (Speaker.speak self txt false o)
         /\ outcome_of (Speaker.speak self txt true o)
            = outcome_of (Speaker.speak self txt false o))
  /\ (forall (self : Speaker.t) (txt : pystr) (o : tts_outcome)
             (line : pystr),
         In (EvPrint line) (trace (Speaker.speak self txt false o)) ->
         exists e, is_Exception e = true
                   /\ line = lit "TTS Error: " ++ exn_msg e)
  /\ (forall (self : Speaker.t) (txt : pystr) (o : tts_outcome),
         Speaker.enabled self = false
         \/ (Speaker.has_engine self = true
             /\ say_result o = Returns tt /\ run_result o = Returns tt) ->
         count_ev is_print (trace (Speaker.speak self txt false o)) = 0%nat).
Proof.
  split; [reflexivity|]. split; [|split].
  - intros self txt o. unfold Speaker.speak. steps. split; reflexivity.
  - intros self txt o line.
    unfold Speaker.speak, try_except, bind, trace.
    destruct (Speaker.enabled self), (Speaker.has_engine self);
      destruct (say_result o) as [[]|es], (run_result o) as [[]|er]; simpl;
      try destruct (is_Exception es) eqn:Hes;
      try destruct (is_Exception er) eqn:Her;
      simpl; intro H;
      repeat match goal with
             | H : _ \/ _ |- _ => destruct H as [H|H]
             | H : False |- _ => contradiction
             | H : _ = EvPrint _ |- _ =>
                 first [discriminate H | injection H as <-]
             end;
      try (eexists; split; [ | reflexivity]; assumption);
      exists (Exn AttributeError
                  (lit "'Speaker' object has no attribute 'engine'"));
      split; reflexivity.
  - intros self txt o [Hen|[Heng [Hs Hr]]];
      unfold Speaker.speak; steps.
    + now rewrite Hen.
    + rewrite Heng, Hs, Hr. now destruct (Speaker.enabled self).
Qed.

Lemma print_text_controls_the_echo_witness :
  In (EvPrint (lit "TTS Error: device busy"))
     (trace (Speaker.speak sample_speaker (lit "Clear path ahead") false
               {| say_result :=
                    Throws (Exn (OtherException "RuntimeError")
                                (lit "device busy"));
                  run_result := Returns tt |}))
  /\ (exists e, is_Exception e = true
                /\ lit "TTS Error: device busy"
                   = lit "TTS Error: " ++ exn_msg e)
  /\ count_ev is_print
       (trace (Speaker.speak sample_speaker (lit "Clear path ahead") false
                 tts_fine)) = 0%nat.
Proof.
  assert (Hin : In (EvPrint (lit "TTS Error: device busy"))
                   (trace (Speaker.speak sample_speaker
                             (lit "Clear path ahead") false
                             {| say_result :=
                                  Throws (Exn (OtherException "RuntimeError")
                                              (lit "device busy"));
                                run_result := Returns tt |})))
    by (right; left; reflexivity).
  split; [exact Hin|]. split.
  - exact (proj1 (proj2 (proj2 print_text_controls_the_echo)) _ _ _ _ Hin).
  - apply (proj2 (proj2 (proj2 print_text_controls_the_echo))).
    right. repeat split; reflexivity.
Defined.


(** * Further properties of the code *)

(** ** Speaker *)

Lemma speak_outcome self txt pt o :
  match outcome_of (Speaker.speak self txt pt o) with
  | Done _ => True
  | Raised e =>
      is_Exception e = false
      /\ (say_result o = Throws e \/ run_result o = Throws e)
  | Blocked => False
  end.
Proof.
  unfold Speaker.speak, try_except, bind, outcome_of.
  destruct pt, (Speaker.enabled self), (Speaker.has_engine self);
    simpl; auto;
    destruct (say_result o) as [[]|es], (run_result o) as [[]|er];
    simpl; auto;
    try destruct (is_Exception es) eqn:Hes;
    try destruct (is_Exception er) eqn:Her;
    simpl; auto.
Qed.

(** X1.  Whatever the state of the speaker and whatever the speech engine
    does, [speak] returns normally or lets through an exception outside
    [Exception] that [say] or [runAndWait] threw: no exception that
    [except Exception] covers ever leaves [speak]. *)
Theorem speak_lets_no_Exception_out :
  forall (self : Speaker.t) (txt : pystr) (pt : bool) (o : tts_outcome),
    outcome_of (Speaker.speak self txt pt o) = Done tt
    \/ exists e,
        outcome_of (Speaker.speak self txt pt o) = Raised e
        /\ is_Exception e = false
        /\ (say_result o = Throws e \/ run_result o = Throws e).
Proof.
  intros self txt pt o.
  pose proof (speak_outcome self txt pt o) as H.
  destruct (outcome_of (Speaker.speak self txt pt o)) as [[]|e|].
  - now left.
  - right. now exists e.
  - contradiction.
Qed.

(** X2.  The constructor of [Speaker] never lets out an exception that
    [except Exception] covers, and the speaker it returns is enabled exactly
    when both [pyttsx3.init()] and [setProperty] returned.  When the engine
    starts but setting the rate fails, the warning is printed and the
    speaker is disabled although it holds an engine. *)
Theorem speaker_enabled_iff_engine_started :
  (forall (rate : Z) (o : tts_boot),
      match outcome_of (Speaker.__init__ rate o) with
      | Done sp =>
          Speaker.enabled sp = true
          <-> (boot_init o = Returns tt /\ boot_setProperty o = Returns tt)
      | Raised e => is_Exception e = false
      | Blocked => False
      end)
  /\ (forall (rate : Z) (o : tts_boot) (e : exn),
         boot_init o = Returns tt ->
         boot_setProperty o = Throws e ->
         is_Exception e = true ->
         Speaker.__init__ rate o
         = ([EvTtsInit; EvSetProperty (lit "rate") rate;
             EvPrint ([9888; 65039]%N ++ lit " TTS initialization failed: "
                        ++ exn_msg e)],
            Done {| Speaker.has_engine := true; Speaker.enabled := false |})).
Proof.
  split.
  - intros rate o.
    unfold Speaker.__init__, try_except, bind, outcome_of.
    destruct (boot_init o) as [[]|ei], (boot_setProperty o) as [[]|es];
      simpl;
      try destruct (is_Exception ei) eqn:Hei;
      try destruct (is_Exception es) eqn:Hes;
      simpl; auto;
      split; intro H; try discriminate; auto;
      destruct H; discriminate.
  - intros rate o e Hi Hs He.
    unfold Speaker.__init__, try_except, bind. rewrite Hi, Hs. simpl.
    now rewrite He.
Qed.

Lemma speaker_enabled_iff_engine_started_witness :
  Speaker.__init__ 170 boot_no_rate
  = ([EvTtsInit; EvSetProperty (lit "rate") 170;
      EvPrint ([9888; 65039]%N ++ lit " TTS initialization failed: bad rate")],
     Done {| Speaker.has_engine := true; Speaker.enabled := false |}).
Proof.
  apply (proj2 speaker_enabled_iff_engine_started 170%Z boot_no_rate
               (Exn (OtherException "RuntimeError") (lit "bad rate")));
    reflexivity.
Defined.

(** ** A session without a speech engine *)

Lemma speak_silent self txt pt o :
  Speaker.enabled self = false ->
  only silent_ev (Speaker.speak self txt pt o).
Proof.
  intro H. unfold Speaker.speak. rewrite H. only_go.
Qed.

Lemma analyze_frame_silent self f o :
  only silent_ev (ObstacleDetector.analyze_frame self f o).
Proof.
  unfold ObstacleDetector.analyze_frame, hasattr_text, get_text.
  only_go.
Qed.

Lemma poll_loop_silent self script :
  Speaker.enabled (AssistiveAI.speaker self) = false ->
  forall last, only silent_ev (AssistiveAI.poll_loop self last script).
Proof.
  intro Hmute.
  induction script as [|it rest IH]; intro last; simpl.
  - apply only_nil.
  - apply only_bind.
    + unfold AssistiveAI.loop_body, AssistiveAI.analysis_step,
        AssistiveAI.display_step, AssistiveAI._analyze_and_speak.
      only_go;
        first [ apply analyze_frame_silent
              | now apply speak_silent ].
    + intros [|last']; [apply only_nil | apply IH].
Qed.

Lemma start_silent self w :
  Speaker.enabled (AssistiveAI.speaker self) = false ->
  only silent_ev (AssistiveAI.start self w).
Proof.
  intro Hmute.
  unfold AssistiveAI.start, AssistiveAI.announce, AssistiveAI.guarded_loop,
    AssistiveAI.cleanup.
  cbv zeta.
  only_go;
    first [ now apply poll_loop_silent
          | now apply speak_silent ].
Qed.

(** X3.  Without a working speech engine the whole session is silent: a run
    of [start] on an application whose speaker is disabled makes no playback
    call, and so does a run of the program in which [pyttsx3.init()] threw
    an exception that [except Exception] covers. *)
Theorem no_playback_without_engine :
  (forall (self : AssistiveAI.t) (w : session),
      Speaker.enabled (AssistiveAI.speaker self) = false ->
      count_ev is_playback (trace (AssistiveAI.start self w)) = 0%nat)
  /\ (forall (h : host) (o : tts_boot) (w : session) (e : exn),
         boot_init o = Throws e ->
         is_Exception e = true ->
         count_ev is_playback (trace (program h o w)) = 0%nat).
Proof.
  assert (Hq : forall e, silent_ev e = true -> is_playback e = false)
    by (intros e He; now apply negb_true_iff).
  split.
  - intros self w Hmute.
    apply (count_quiet is_playback silent_ev); [exact Hq|].
    now apply start_silent.
  - intros h o w e Hi He.
    apply (count_quiet is_playback silent_ev); [exact Hq|].
    assert (Hsp : Speaker.__init__ 170 o
                  = ([EvTtsInit;
                      EvPrint ([9888; 65039]%N
                                 ++ lit " TTS initialization failed: "
                                 ++ exn_msg e)],
                     Done mute_speaker)).
    { unfold Speaker.__init__, try_except, bind. rewrite Hi. simpl.
      now rewrite He. }
    set (app := {| AssistiveAI.camera_id := 0; AssistiveAI.interval := 3;
                   AssistiveAI.speaker := mute_speaker;
                   AssistiveAI.detector :=
                     {| ObstacleDetector.model := MODEL_NAME;
                        ObstacleDetector.prompt :=
                          ObstacleDetector.fixed_prompt |};
                   AssistiveAI.cap := None |}).
    assert (Hmain : AssistiveAI.__init__ 0 3 o
                    = ([EvTtsInit;
                        EvPrint ([9888; 65039]%N
                                   ++ lit " TTS initialization failed: "
                                   ++ exn_msg e);
                        EvGenerativeModel MODEL_NAME],
                       Done app)).
    { unfold AssistiveAI.__init__. rewrite Hsp. reflexivity. }
    change (only silent_ev (program h o w)).
    unfold program, main. rewrite Hmain.
    apply only_bind.
    + unfold module_init. only_go.
    + intros _. unfold only. steps.
      apply Forall_app. split; [repeat constructor|].
      now apply start_silent.
Qed.

Lemma no_playback_without_engine_witness :
  count_ev is_playback (trace (program sample_host boot_broken sample_session))
  = 0%nat.
Proof.
  apply (proj2 no_playback_without_engine sample_host boot_broken
               sample_session
               (Exn (OtherException "RuntimeError") (lit "no driver")));
    reflexivity.
Defined.

(** ** The request of [analyze_frame] *)

Lemma analyze_frame_trace self f o :
  trace (ObstacleDetector.analyze_frame self f o)
  = match an_imencode o with
    | Returns None | Throws _ => [EvImencode (lit ".jpg") f]
    | Returns (Some image_bytes) =>
        [EvImencode (lit ".jpg") f;
         EvGenerateContent (ObstacleDetector.prompt self) (lit "image/jpeg")
                           (b64encode image_bytes)]
    end.
Proof.
  unfold ObstacleDetector.analyze_frame, hasattr_text, get_text.
  destruct o as [[[image_bytes|]|ei] [[[|[[|c s]|]|[[] msg]]]|e]];
    reflexivity.
Qed.

(** X4.  Whatever the encoder and the remote model answer (a text, no
    text, a response whose text cannot be read, an error), [analyze_frame]
    makes its external calls once and in one order: [cv2.imencode] on the
    frame, and, when the frame was encoded, one [generate_content] with the prompt of the
    detector, the MIME type image/jpeg and the base64 text of the encoded
    bytes.  There is no second request. *)
Theorem analyze_frame_sends_one_request :
  forall (self : ObstacleDetector.t) (f : frame) (o : analysis_script),
    trace (ObstacleDetector.analyze_frame self f o)
    = match an_imencode o with
      | Returns None | Throws _ => [EvImencode (lit ".jpg") f]
      | Returns (Some image_bytes) =>
          [EvImencode (lit ".jpg") f;
           EvGenerateContent (ObstacleDetector.prompt self)
                             (lit "image/jpeg") (b64encode image_bytes)]
      end
    /\ (count_ev is_remote (trace (ObstacleDetector.analyze_frame self f o))
        <= 1)%nat.
Proof.
  intros self f o. rewrite analyze_frame_trace.
  split; [reflexivity|].
  destruct (an_imencode o) as [[image_bytes|]|e]; simpl; auto.
Qed.

(** Induction over byte strings three bytes at a time, as [b64encode]
    consumes them. *)
Lemma triples_ind (P : list N -> Prop) :
  P [] ->
  (forall a, P [a]) ->
  (forall a b, P [a; b]) ->
  (forall a b c rest, P rest -> P (a :: b :: c :: rest)) ->
  forall bs, P bs.
Proof.
  intros H0 H1 H2 H3.
  fix IH 1.
  intros [|a [|b [|c rest]]];
    [ exact H0 | exact (H1 a) | exact (H2 a b)
    | exact (H3 a b c rest (IH rest)) ].
Qed.

Lemma b64encode_length bs :
  List.length (b64encode bs) = (4 * ((List.length bs + 2) / 3))%nat.
Proof.
  induction bs as [|a|a b|a b c rest IH] using triples_ind;
    try reflexivity.
  change (b64encode (a :: b :: c :: rest))
    with ([b64_char (a / 4); b64_char ((a mod 4) * 16 + b / 16);
           b64_char ((b mod 16) * 4 + c / 64); b64_char (c mod 64)]%N
            ++ b64encode rest).
  rewrite length_app, IH. simpl List.length.
  replace (S (S (S (List.length rest))) + 2)%nat
    with (1 * 3 + (List.length rest + 2))%nat by lia.
  rewrite Nat.div_add_l by lia. lia.
Qed.

Lemma b64_char_ascii i : (b64_char i < 128)%N.
Proof.
  unfold b64_char.
  match goal with
  | |- (nth ?n ?l ?d < 128)%N =>
      destruct (nth_in_or_default n l d) as [Hin| ->]; [|reflexivity];
      assert (Hall : Forall (fun c => (c < 128)%N) l)
        by (vm_compute; repeat constructor);
      rewrite Forall_forall in Hall; now apply Hall
  end.
Qed.

Lemma b64encode_ascii bs : Forall (fun c => (c < 128)%N) (b64encode bs).
Proof.
  induction bs as [|a|a b|a b c rest IH] using triples_ind.
  - constructor.
  - repeat constructor; apply b64_char_ascii.
  - repeat constructor; apply b64_char_ascii.
  - change (b64encode (a :: b :: c :: rest))
      with ([b64_char (a / 4); b64_char ((a mod 4) * 16 + b / 16);
             b64_char ((b mod 16) * 4 + c / 64); b64_char (c mod 64)]%N
              ++ b64encode rest).
    apply Forall_app. split; [|exact IH].
    repeat constructor; apply b64_char_ascii.
Qed.

(** X5.  The image data of every request [analyze_frame] sends is ASCII
    text (so decoding it as UTF-8 cannot fail) of four characters for every
    three bytes of the encoded image, rounded up. *)
Theorem request_data_is_padded_ascii :
  forall (self : ObstacleDetector.t) (f : frame) (o : analysis_script)
         (p m d : pystr),
    In (EvGenerateContent p m d)
       (trace (ObstacleDetector.analyze_frame self f o)) ->
    Forall (fun c => (c < 128)%N) d
    /\ exists image_bytes,
        an_imencode o = Returns (Some image_bytes)
        /\ List.length d = (4 * ((List.length image_bytes + 2) / 3))%nat.
Proof.
  intros self f o p m d. rewrite analyze_frame_trace.
  destruct (an_imencode o) as [[image_bytes|]|e]; simpl.
  - intros [H|[H|[]]]; [discriminate|].
    injection H as _ _ <-. split; [apply b64encode_ascii|].
    exists image_bytes. split; [reflexivity | apply b64encode_length].
  - intros [H|[]]. discriminate.
  - intros [H|[]]. discriminate.
Qed.

Lemma request_data_is_padded_ascii_witness :
  Forall (fun c => (c < 128)%N) (lit "/9j/")
  /\ exists image_bytes,
      an_imencode (answers (lit "Clear path ahead"))
      = Returns (Some image_bytes)
      /\ List.length (lit "/9j/")
         = (4 * ((List.length image_bytes + 2) / 3))%nat.
Proof.
  apply (request_data_is_padded_ascii sample_detector (Frame 1)
           (answers (lit "Clear path ahead"))
           ObstacleDetector.fixed_prompt (lit "image/jpeg") (lit "/9j/")).
  right. left. reflexivity.
Defined.

Lemma lstrip_all_space s : forallb py_isspace s = true -> lstrip s = [].
Proof.
  induction s as [|c s IH]; simpl; auto.
  intro H. apply andb_prop in H. destruct H as [Hc Hs].
  rewrite Hc. auto.
Qed.

(** X6.  A response whose text is not empty but consists of whitespace only
    is usable for [analyze_frame]: the result is the empty string, not the
    fixed string of the no-text case. *)
Theorem whitespace_text_gives_empty_result :
  forall (self : ObstacleDetector.t) (f : frame) (image_bytes : list N)
         (c : N) (s : pystr),
    forallb py_isspace (c :: s) = true ->
    outcome_of (ObstacleDetector.analyze_frame self f
                  {| an_imencode := Returns (Some image_bytes);
                     an_generate :=
                       Returns {| text := AttrValue (Some (c :: s)) |} |})
    = Done [].
Proof.
  intros self f image_bytes c s H.
  assert (Ho : outcome_of (ObstacleDetector.analyze_frame self f
                             {| an_imencode := Returns (Some image_bytes);
                                an_generate :=
                                  Returns {| text := AttrValue
                                                       (Some (c :: s)) |} |})
               = Done (strip (c :: s))) by reflexivity.
  rewrite Ho. unfold strip, rstrip.
  now rewrite (lstrip_all_space _ H).
Qed.

Lemma whitespace_text_gives_empty_result_witness :
  outcome_of (ObstacleDetector.analyze_frame sample_detector (Frame 1)
                (answers [32; 10]%N))
  = Done [].
Proof.
  apply (whitespace_text_gives_empty_result sample_detector (Frame 1)
           [255; 216; 255]%N 32%N [10%N]).
  reflexivity.
Defined.

(** ** The two other ways through [_analyze_and_speak] *)

Lemma analyze_and_speak_success self f it result :
  outcome_of (ObstacleDetector.analyze_frame (AssistiveAI.detector self) f
                (it_analysis it)) = Done result ->
  trace (AssistiveAI._analyze_and_speak self f it)
  = EvPrint (10%N :: lit "[ANALYZING] Processing frame...")
    :: trace (ObstacleDetector.analyze_frame (AssistiveAI.detector self) f
                (it_analysis it))
    ++ trace (Speaker.speak (AssistiveAI.speaker self) result
                Speaker.print_text_default (it_tts it))
  /\ outcome_of (AssistiveAI._analyze_and_speak self f it)
     = outcome_of (Speaker.speak (AssistiveAI.speaker self) result
                     Speaker.print_text_default (it_tts it)).
Proof.
  intro Hdone. unfold AssistiveAI._analyze_and_speak.
  rewrite trace_try_except, outcome_try_except.
  steps. rewrite Hdone. steps.
  pose proof (speak_outcome (AssistiveAI.speaker self) result
                Speaker.print_text_default (it_tts it)) as Hsp.
  destruct (outcome_of (Speaker.speak (AssistiveAI.speaker self) result
                          Speaker.print_text_default (it_tts it)))
    as [[]|e|]; try contradiction.
  - rewrite app_nil_r. split; reflexivity.
  - destruct Hsp as [He _]. rewrite He, app_nil_r. split; reflexivity.
Qed.

Lemma analyze_and_speak_interrupted self f it e :
  outcome_of (ObstacleDetector.analyze_frame (AssistiveAI.detector self) f
                (it_analysis it)) = Raised e ->
  is_Exception e = false ->
  AssistiveAI._analyze_and_speak self f it
  = (EvPrint (10%N :: lit "[ANALYZING] Processing frame...")
       :: trace (ObstacleDetector.analyze_frame (AssistiveAI.detector self) f
                   (it_analysis it)),
     Raised e).
Proof.
  intros Hraise He. apply M_ext; unfold AssistiveAI._analyze_and_speak.
  - rewrite trace_try_except. steps. rewrite Hraise. steps.
    now rewrite He, !app_nil_r.
  - rewrite outcome_try_except. steps. rewrite Hraise. steps.
    now rewrite He.
Qed.

(** X7.  The error phrase of [_analyze_and_speak] answers failures of the
    analysis only.  When [analyze_frame] returns a result, the result is
    spoken and that is all: a playback failure while speaking it is handled
    inside [speak] and is not reported as an analysis error.  When
    [analyze_frame] is left by an exception outside [Exception] (an
    interruption during the remote call), nothing is logged or spoken and
    the exception goes on to the caller. *)
Theorem error_phrase_only_for_analysis_failures :
  (forall (self : AssistiveAI.t) (f : frame) (it : iteration)
          (result : pystr),
      outcome_of (ObstacleDetector.analyze_frame (AssistiveAI.detector self) f
                    (it_analysis it)) = Done result ->
      trace (AssistiveAI._analyze_and_speak self f it)
      = EvPrint (10%N :: lit "[ANALYZING] Processing frame...")
        :: trace (ObstacleDetector.analyze_frame (AssistiveAI.detector self) f
                    (it_analysis it))
        ++ trace (Speaker.speak (AssistiveAI.speaker self) result
                    Speaker.print_text_default (it_tts it))
      /\ outcome_of (AssistiveAI._analyze_and_speak self f it)
         = outcome_of (Speaker.speak (AssistiveAI.speaker self) result
                         Speaker.print_text_default (it_tts it)))
  /\ (forall (self : AssistiveAI.t) (f : frame) (it : iteration) (e : exn),
         outcome_of (ObstacleDetector.analyze_frame
                       (AssistiveAI.detector self) f (it_analysis it))
         = Raised e ->
         is_Exception e = false ->
         AssistiveAI._analyze_and_speak self f it
         = (EvPrint (10%N :: lit "[ANALYZING] Processing frame...")
              :: trace (ObstacleDetector.analyze_frame
                          (AssistiveAI.detector self) f (it_analysis it)),
            Raised e)).
Proof.
  split.
  - intros self f it result. apply analyze_and_speak_success.
  - intros self f it e. apply analyze_and_speak_interrupted.
Qed.

Lemma error_phrase_only_for_analysis_failures_witness :
  outcome_of (AssistiveAI._analyze_and_speak sample_app (Frame 1)
                pass_playback_fails)
  = Done tt
  /\ AssistiveAI._analyze_and_speak sample_app (Frame 1)
       (pass 100 (-1) remote_interrupted)
     = ([EvPrint (10%N :: lit "[ANALYZING] Processing frame...");
         EvImencode (lit ".jpg") (Frame 1);
         EvGenerateContent ObstacleDetector.fixed_prompt (lit "image/jpeg")
                           (lit "/9j/")],
        Raised (Exn KeyboardInterrupt [])).
Proof.
  split.
  - rewrite (proj2 (proj1 error_phrase_only_for_analysis_failures
                          sample_app (Frame 1) pass_playback_fails
                          (lit "Clear path ahead") eq_refl)).
    reflexivity.
  - apply (proj2 error_phrase_only_for_analysis_failures sample_app (Frame 1)
                 (pass 100 (-1) remote_interrupted)
                 (Exn KeyboardInterrupt []));
      reflexivity.
Defined.

(** ** Counting what the polling loop does *)

Lemma dispatch_times_count tr :
  List.length (dispatch_times tr) = count_ev is_dispatch tr.
Proof.
  unfold count_ev.
  induction tr as [|e tr IH]; simpl; auto.
  destruct e; simpl; auto.
Qed.

Lemma count_ev_one p e : count_ev p [e] = if p e then 1%nat else 0%nat.
Proof. unfold count_ev. simpl. now destruct (p e). Qed.

Lemma count_ev_nil p : count_ev p [] = 0%nat.
Proof. reflexivity. Qed.

(** Counts of a trace given by its pieces. *)
Ltac count_norm :=
  rewrite ?count_ev_app, ?count_ev_one, ?count_ev_nil;
  cbn [is_read is_remote is_dispatch].

Lemma loop_body_dispatch_times self last it :
  dispatch_times (trace (AssistiveAI.loop_body self last it))
  = match it_read it with
    | Returns (Some _) =>
        if Qle_bool (AssistiveAI.interval self) (it_time it - last)
        then [it_time it] else []
    | _ => []
    end.
Proof.
  unfold AssistiveAI.loop_body. steps.
  destruct (it_read it) as [[f|]|e]; steps; try reflexivity.
  rewrite !dispatch_times_app.
  rewrite (proj1 (analysis_step_dispatch self last f it)).
  destruct (outcome_of (AssistiveAI.analysis_step self last f it));
    steps; simpl dispatch_times; rewrite ?app_nil_r; try reflexivity.
  rewrite dispatch_times_app.
  rewrite (dispatch_quiet display_ev);
    [| exact display_quiet | apply display_step_only].
  destruct (outcome_of (AssistiveAI.display_step self f it));
    steps; simpl; now rewrite ?app_nil_r.
Qed.

Lemma analyze_and_speak_remote self f it :
  (count_ev is_remote (trace (AssistiveAI._analyze_and_speak self f it))
   <= 1)%nat.
Proof.
  assert (Hsp : forall txt o,
             count_ev is_remote
               (trace (Speaker.speak (AssistiveAI.speaker self) txt
                         Speaker.print_text_default o)) = 0%nat).
  { intros txt o. apply (count_quiet is_remote speech_ev);
      [now intros [] | apply speak_only]. }
  assert (Han : (count_ev is_remote
                   (trace (ObstacleDetector.analyze_frame
                             (AssistiveAI.detector self) f (it_analysis it)))
                 <= 1)%nat).
  { rewrite analyze_frame_trace.
    destruct (an_imencode _) as [[image_bytes|]|e];
      unfold count_ev; simpl; lia. }
  unfold AssistiveAI._analyze_and_speak.
  rewrite trace_try_except. steps.
  destruct (outcome_of (ObstacleDetector.analyze_frame
                          (AssistiveAI.detector self) f (it_analysis it)))
    as [res|e|]; steps.
  - destruct (outcome_of (Speaker.speak _ res _ _)) as [[]|e|];
      try destruct (is_Exception e); steps;
      count_norm; rewrite ?Hsp; lia.
  - destruct (is_Exception e); steps; count_norm; rewrite ?Hsp; lia.
  - count_norm. lia.
Qed.

(** One pass of the loop: one frame read, at most one dispatch, and no
    remote call without a dispatch. *)
Lemma loop_body_counts self last it :
  let tr := trace (AssistiveAI.loop_body self last it) in
  count_ev is_read tr = 1%nat
  /\ (count_ev is_dispatch tr <= 1)%nat
  /\ (count_ev is_remote tr <= count_ev is_dispatch tr)%nat.
Proof.
  cbv zeta. rewrite <- dispatch_times_count, loop_body_dispatch_times.
  unfold AssistiveAI.loop_body. steps.
  destruct (it_read it) as [[f|]|e]; steps;
    [| count_norm; simpl; lia ..].
  assert (Hd : forall p, (forall e, display_ev e = true -> p e = false) ->
                         count_ev p (trace (AssistiveAI.display_step self f it))
                         = 0%nat).
  { intros p Hp. apply (count_quiet p display_ev);
      [exact Hp | apply display_step_only]. }
  assert (Hs : count_ev is_read
                 (trace (AssistiveAI.analysis_step self last f it)) = 0%nat).
  { apply (count_quiet is_read step_ev);
      [now intros [] | apply analysis_step_only]. }
  assert (Hr : (count_ev is_remote
                  (trace (AssistiveAI.analysis_step self last f it))
                <= if Qle_bool (AssistiveAI.interval self) (it_time it - last)
                   then 1 else 0)%nat).
  { unfold AssistiveAI.analysis_step. steps.
    destruct (Qle_bool _ _); steps; [|count_norm; lia].
    pose proof (analyze_and_speak_remote self f it) as Ha.
    destruct (outcome_of (AssistiveAI._analyze_and_speak self f it));
      steps; count_norm; lia. }
  assert (Htail : forall p,
             (forall e, display_ev e = true -> p e = false) ->
             count_ev p
               match outcome_of (AssistiveAI.analysis_step self last f it) with
               | Done a =>
                   trace (stop <- AssistiveAI.display_step self f it ;;
                          ret (if stop then Break else Continue a))
               | _ => []
               end = 0%nat).
  { intros p Hp.
    destruct (outcome_of (AssistiveAI.analysis_step self last f it));
      steps; try reflexivity.
    rewrite count_ev_app, (Hd p Hp).
    destruct (outcome_of (AssistiveAI.display_step self f it)); steps;
      reflexivity. }
  count_norm. rewrite Hs, !Htail by (now intros []).
  destruct (Qle_bool _ _); simpl List.length; lia.
Qed.

Lemma poll_loop_counts self script :
  forall last,
    let tr := trace (AssistiveAI.poll_loop self last script) in
    (count_ev is_remote tr <= count_ev is_dispatch tr)%nat
    /\ (count_ev is_dispatch tr <= count_ev is_read tr)%nat
    /\ (count_ev is_read tr <= List.length script)%nat.
Proof.
  induction script as [|it rest IH]; intro last; cbv zeta;
    simpl AssistiveAI.poll_loop.
  - count_norm. simpl. lia.
  - steps. rewrite !count_ev_app.
    destruct (loop_body_counts self last it) as [Hr [Hd Hm]].
    destruct (outcome_of (AssistiveAI.loop_body self last it))
      as [[|last']| |]; steps; simpl List.length;
      try (specialize (IH last'); cbv zeta in IH;
           destruct IH as [I1 [I2 I3]]);
      rewrite ?count_ev_nil; lia.
Qed.

(** Outside the body of the loop, [start] emits none of the events of the
    loop body. *)
Lemma start_count p self w :
  (forall e, p e = true -> inner_ev e = true) ->
  count_ev p (trace (AssistiveAI.start self w))
  = if ses_opened w then
      match outcome_of (AssistiveAI.announce
                          (AssistiveAI.set_cap self
                             (Some (AssistiveAI.camera_id self))) w) with
      | Done _ =>
          count_ev p (trace (AssistiveAI.poll_loop
                               (AssistiveAI.set_cap self
                                  (Some (AssistiveAI.camera_id self)))
                               0 (ses_iterations w)))
      | _ => 0%nat
      end
    else 0%nat.
Proof.
  intro Hp.
  assert (Hout : forall e, inner_ev e = false -> p e = false).
  { intros e He. destruct (p e) eqn:E; auto. apply Hp in E. congruence. }
  rewrite start_shape. cbv zeta.
  set (self' := AssistiveAI.set_cap self (Some (AssistiveAI.camera_id self))).
  destruct (ses_opened w).
  2:{ unfold count_ev. simpl. now rewrite !Hout. }
  steps. rewrite !count_ev_app.
  rewrite (count_quiet p console_ev (trace (AssistiveAI.announce self' w)));
    [| intros e He; apply Hout; now destruct e | apply announce_only].
  assert (H2 : count_ev p [EvVideoCapture (AssistiveAI.camera_id self)]
               = 0%nat) by (unfold count_ev; simpl; now rewrite Hout).
  assert (H3 : count_ev p [EvIsOpened] = 0%nat)
    by (unfold count_ev; simpl; now rewrite Hout).
  rewrite H2, H3.
  destruct (outcome_of (AssistiveAI.announce self' w)); try reflexivity.
  rewrite trace_try_finally, count_ev_app.
  assert (Hc : count_ev p (trace (AssistiveAI.cleanup self')) = 0%nat).
  { unfold self'. rewrite cleanup_trace_eq. unfold count_ev. simpl.
    now rewrite !Hout. }
  unfold AssistiveAI.guarded_loop at 1.
  rewrite trace_try_except, count_ev_app.
  assert (Hh : count_ev p
                 match outcome_of (AssistiveAI.poll_loop self' 0
                                     (ses_iterations w)) with
                 | Raised e =>
                     match
                       (if is_KeyboardInterrupt e
                        then Some (print (10%N :: lit "[INTERRUPTED] User stopped the system") ;;;
                                   Speaker.speak (AssistiveAI.speaker self')
                                     (lit "System interrupted.")
                                     Speaker.print_text_default
                                     (ses_tts_interrupt w))
                        else None)
                     with
                     | Some h => trace h
                     | None => []
                     end
                 | _ => []
                 end = 0%nat).
  { destruct (outcome_of (AssistiveAI.poll_loop self' 0 (ses_iterations w)))
      as [|e|]; try reflexivity.
    destruct (is_KeyboardInterrupt e); try reflexivity.
    steps. rewrite count_ev_app.
    rewrite (count_quiet p speech_ev (trace (Speaker.speak _ _ _ _)));
      [| intros e' He'; apply Hout; now destruct e' | apply speak_only].
    unfold count_ev. simpl. now rewrite Hout. }
  rewrite Hh.
  destruct (outcome_of (AssistiveAI.guarded_loop self' w));
    rewrite ?Hc, ?count_ev_nil; lia.
Qed.

(** X12.  In every run of [start] there are at most as many remote
    inference calls as dispatches, and at most as many dispatches as frames
    read: no remote call is made outside a dispatch, and no frame is
    analysed twice. *)
Theorem remote_calls_bounded_by_frames :
  forall (self : AssistiveAI.t) (w : session),
    (count_ev is_remote (trace (AssistiveAI.start self w))
     <= List.length (dispatch_times (trace (AssistiveAI.start self w))))%nat
    /\ (List.length (dispatch_times (trace (AssistiveAI.start self w)))
        <= count_ev is_read (trace (AssistiveAI.start self w)))%nat
    /\ (count_ev is_read (trace (AssistiveAI.start self w))
        <= List.length (ses_iterations w))%nat.
Proof.
  intros self w. rewrite dispatch_times_count.
  rewrite !start_count by (now intros []).
  destruct (ses_opened w); [|simpl; lia].
  destruct (outcome_of (AssistiveAI.announce _ w)); try (simpl; lia).
  apply poll_loop_counts.
Qed.

(** ** How often and how early analyses are dispatched *)

Lemma start_dispatch_times self w :
  dispatch_times (trace (AssistiveAI.start self w))
  = if ses_opened w then
      match outcome_of (AssistiveAI.announce
                          (AssistiveAI.set_cap self
                             (Some (AssistiveAI.camera_id self))) w) with
      | Done _ =>
          dispatch_times
            (trace (AssistiveAI.poll_loop
                      (AssistiveAI.set_cap self
                         (Some (AssistiveAI.camera_id self)))
                      0 (ses_iterations w)))
      | _ => []
      end
    else [].
Proof.
  rewrite start_shape. cbv zeta.
  set (self' := AssistiveAI.set_cap self (Some (AssistiveAI.camera_id self))).
  destruct (ses_opened w); [|reflexivity].
  steps. rewrite !dispatch_times_app.
  rewrite (dispatch_quiet console_ev);
    [| exact console_quiet | apply announce_only].
  destruct (outcome_of (AssistiveAI.announce self' w)); try reflexivity.
  rewrite trace_try_finally, dispatch_times_app.
  replace (dispatch_times
             match outcome_of (AssistiveAI.guarded_loop self' w) with
             | Blocked => []
             | _ => trace (AssistiveAI.cleanup self')
             end) with (@nil Q)
    by now destruct (outcome_of (AssistiveAI.guarded_loop self' w)).
  unfold AssistiveAI.guarded_loop.
  rewrite trace_try_except, dispatch_times_app.
  match goal with
  | |- _ ++ _ ++ _ ++ (_ ++ dispatch_times ?x) ++ _ = _ =>
      replace (dispatch_times x) with (@nil Q)
  end.
  - simpl. now rewrite !app_nil_r.
  - destruct (outcome_of (AssistiveAI.poll_loop _ _ _)) as [|e|]; auto.
    destruct (is_KeyboardInterrupt e); auto.
    steps. rewrite ?dispatch_times_app.
    rewrite (dispatch_quiet speech_ev);
      [reflexivity | exact speech_quiet | apply speak_only].
Qed.

(** X10.  The first analysis is not delayed by the interval: [start] sets
    [last_analysis] to 0, so when the first frame is read at a clock reading
    of at least the interval (as every reading of the epoch clock is for the
    default of three seconds), the first dispatch of the run happens in that
    first pass and is stamped with that reading. *)
Theorem first_frame_is_analysed_at_once :
  forall (self : AssistiveAI.t) (w : session) (it : iteration)
         (rest : list iteration) (f : frame),
    ses_opened w = true ->
    outcome_of (AssistiveAI.announce
                  (AssistiveAI.set_cap self
                     (Some (AssistiveAI.camera_id self))) w) = Done tt ->
    ses_iterations w = it :: rest ->
    it_read it = Returns (Some f) ->
    AssistiveAI.interval self <= it_time it ->
    exists later,
      dispatch_times (trace (AssistiveAI.start self w)) = it_time it :: later.
Proof.
  intros self w it rest f Hop Hann Hits Hread Hdue.
  rewrite start_dispatch_times, Hop, Hann, Hits.
  simpl AssistiveAI.poll_loop. steps. rewrite dispatch_times_app.
  rewrite loop_body_dispatch_times, Hread.
  assert (Hb : Qle_bool (AssistiveAI.interval
                           (AssistiveAI.set_cap self
                              (Some (AssistiveAI.camera_id self))))
                        (it_time it - 0) = true).
  { apply Qle_bool_iff. simpl. lra. }
  rewrite Hb. eexists. reflexivity.
Qed.

Lemma first_frame_is_analysed_at_once_witness :
  exists later,
    dispatch_times (trace (AssistiveAI.start sample_app sample_session))
    = 100 :: later.
Proof.
  apply (first_frame_is_analysed_at_once sample_app sample_session
           (pass 100 (-1) network_down)
           [pass 101 (-1) (answers (lit "Clear path ahead"));
            pass 103 (-1) (answers (lit "Clear path ahead"));
            pass 104 113 (answers (lit "Clear path ahead"))]
           (Frame 1));
    try reflexivity.
  unfold Qle. simpl. lia.
Defined.

Lemma spaced_nth i a l :
  spaced i a l ->
  forall k t,
    nth_error l k = Some t ->
    inject_Z (Z.of_nat (S k)) * i <= t - a.
Proof.
  revert a. induction l as [|u l IH]; intros a Hs k t Hk.
  - destruct k; discriminate.
  - destruct Hs as [Hu Hs]. destruct k as [|k].
    + injection Hk as <-. change (inject_Z (Z.of_nat 1)) with 1. lra.
    + specialize (IH _ Hs k t Hk).
      rewrite Nat2Z.inj_succ. unfold Z.succ. rewrite inject_Z_plus.
      change (inject_Z 1) with 1. lra.
Qed.

(** X11.  The rate limit as a budget: counted from 1, the k-th dispatch of
    a run of [start] is stamped with a clock reading of at least k times the
    interval.  So up to a reading T at most T / interval analyses have been
    requested, whatever the interval and the clock are. *)
Theorem kth_dispatch_not_before_k_intervals :
  forall (self : AssistiveAI.t) (w : session) (k : nat) (t : Q),
    nth_error (dispatch_times (trace (AssistiveAI.start self w))) k = Some t ->
    inject_Z (Z.of_nat (S k)) * AssistiveAI.interval self <= t.
Proof.
  intros self w k t Hk.
  pose proof (spaced_nth _ _ _ (start_dispatch_spaced self w) k t Hk) as H.
  lra.
Qed.

Lemma kth_dispatch_not_before_k_intervals_witness :
  inject_Z (Z.of_nat 2) * AssistiveAI.interval sample_app <= 103.
Proof.
  apply (kth_dispatch_not_before_k_intervals sample_app sample_session 1 103).
  reflexivity.
Defined.

Lemma live_pass_dispatches self last it :
  live it = true ->
  AssistiveAI.interval self <= 0 ->
  last <= it_time it ->
  outcome_of (AssistiveAI.loop_body self last it)
  = Done (Continue (it_time it))
  /\ dispatch_times (trace (AssistiveAI.loop_body self last it))
     = [it_time it].
Proof.
  intros Hlive Hi Hle.
  assert (Hdue : Qle_bool (AssistiveAI.interval self) (it_time it - last)
                 = true) by (apply Qle_bool_iff; lra).
  destruct (live_loop_body self last it Hlive) as [last' [Ho _]].
  destruct (loop_body_dispatch self last it) as [_ Hlast].
  specialize (Hlast _ Ho).
  pose proof (loop_body_dispatch_times self last it) as Hd.
  unfold live in Hlive.
  destruct (it_read it) as [[f|]|]; try discriminate.
  rewrite Hdue in Hd. rewrite Hd in Hlast. simpl in Hlast.
  split; [now rewrite Ho, Hlast | exact Hd].
Qed.

(** X13.  An interval of zero or less switches the rate limit off: while
    the clock does not go back, every pass in which a frame is read and
    shown, no quit key is pressed and nothing outside [Exception] is thrown
    dispatches an analysis, one per frame. *)
Theorem nonpositive_interval_analyses_every_frame :
  forall (self : AssistiveAI.t) (script : list iteration) (last : Q),
    AssistiveAI.interval self <= 0 ->
    forallb live script = true ->
    nondecreasing last (map it_time script) ->
    dispatch_times (trace (AssistiveAI.poll_loop self last script))
    = map it_time script.
Proof.
  intros self script last Hi. revert last.
  induction script as [|it rest IH]; intros last Hlive Hmono.
  - reflexivity.
  - simpl in Hlive. apply andb_prop in Hlive. destruct Hlive as [Hit Hrest].
    destruct Hmono as [Hle Hmono].
    destruct (live_pass_dispatches self last it Hit Hi Hle) as [Ho Hd].
    simpl AssistiveAI.poll_loop. steps.
    rewrite dispatch_times_app, Hd, Ho. steps.
    simpl. f_equal. now apply IH.
Qed.

Lemma nonpositive_interval_analyses_every_frame_witness :
  dispatch_times
    (trace (AssistiveAI.poll_loop
              {| AssistiveAI.camera_id := 0; AssistiveAI.interval := 0;
                 AssistiveAI.speaker := sample_speaker;
                 AssistiveAI.detector := sample_detector;
                 AssistiveAI.cap := None |}
              100
              [pass 100 (-1) network_down; pass 100 (-1) network_down;
               pass 101 (-1) network_down]))
  = [100; 100; 101].
Proof.
  apply (nonpositive_interval_analyses_every_frame
           {| AssistiveAI.camera_id := 0; AssistiveAI.interval := 0;
              AssistiveAI.speaker := sample_speaker;
              AssistiveAI.detector := sample_detector;
              AssistiveAI.cap := None |}
           [pass 100 (-1) network_down; pass 100 (-1) network_down;
            pass 101 (-1) network_down] 100).
  - unfold Qle. simpl. lia.
  - reflexivity.
  - simpl. unfold Qle. simpl. lia.
Defined.

(** ** What ends a session, and how *)




(** X9.  A failed frame read ends the loop at once and for good: after any
    number of passes that went well, the pass whose [cap.read()] reports
    failure prints the error line and leaves the loop normally without
    asking the clock, analysing or showing anything, and the passes that
    would follow are never run. *)
Theorem read_failure_ends_the_loop :
  forall (self : AssistiveAI.t) (before : list iteration) (it : iteration)
         (after : list iteration) (last : Q),
    forallb live before = true ->
    it_read it = Returns None ->
    outcome_of (AssistiveAI.poll_loop self last (before ++ it :: after))
    = Done tt
    /\ count_ev is_read
         (trace (AssistiveAI.poll_loop self last (before ++ it :: after)))
       = S (List.length before)
    /\ exists pre,
        trace (AssistiveAI.poll_loop self last (before ++ it :: after))
        = pre ++ [EvRead; EvPrint (lit "[ERROR] Could not read frame.")].
Proof.
  intros self before it after last Hlive Hread. revert last.
  induction before as [|b before IH]; intro last.
  - simpl app. simpl AssistiveAI.poll_loop.
    assert (Hb : AssistiveAI.loop_body self last it
                 = ([EvRead; EvPrint (lit "[ERROR] Could not read frame.")],
                    Done Break)).
    { unfold AssistiveAI.loop_body. now rewrite Hread. }
    rewrite Hb. split; [reflexivity|]. split; [reflexivity|]. now exists [].
  - simpl in Hlive. apply andb_prop in Hlive. destruct Hlive as [Hb Hrest].
    destruct (live_loop_body self last b Hb) as [last' [Ho Hc]].
    destruct (IH Hrest last') as [IHo [IHc [pre IHt]]].
    simpl app. simpl AssistiveAI.poll_loop. steps. rewrite Ho. steps.
    rewrite count_ev_app, Hc, IHc, IHt.
    split; [exact IHo|]. split; [reflexivity|].
    exists (trace (AssistiveAI.loop_body self last b) ++ pre).
    now rewrite app_assoc.
Qed.

Lemma read_failure_ends_the_loop_witness :
  outcome_of (AssistiveAI.poll_loop sample_app 0
                ([pass 100 (-1) network_down] ++ read_failure
                   :: [pass 103 (-1) network_down]))
  = Done tt.
Proof.
  exact (proj1 (read_failure_ends_the_loop sample_app
                  [pass 100 (-1) network_down] read_failure
                  [pass 103 (-1) network_down] 0 eq_refl eq_refl)).
Defined.

(** X14.  Only the low byte of what [waitKey] returns decides about
    quitting: key codes that differ by a multiple of 256 (the modifier and
    lock bits some platforms put above the character) are treated alike,
    and a code quits exactly when its low byte is the code of q. *)
Theorem quit_key_ignores_high_bits :
  forall key k : Z,
    AssistiveAI.quit_key (key + 256 * k) = AssistiveAI.quit_key key
    /\ (AssistiveAI.quit_key key = true <-> (key mod 256 = 113)%Z).
Proof.
  intros key k. split; [|apply quit_key_low_byte].
  unfold AssistiveAI.quit_key.
  change 255%Z with (Z.ones 8). rewrite !Z.land_ones by lia.
  change (2 ^ 8)%Z with 256%Z.
  now rewrite Z.mul_comm, Z.mod_add by lia.
Qed.

(** ** The program as a whole *)

Lemma filter_quiet (p q : event -> bool) tr :
  (forall e, q e = true -> p e = false) ->
  Forall (fun e => q e = true) tr -> filter p tr = [].
Proof.
  intros Hq. induction 1 as [|e tr He _ IH]; simpl; auto.
  now rewrite (Hq _ He).
Qed.

(** The module-level code ends in one of two ways. *)
Lemma module_init_cases h :
  (exists pre c s,
      API_KEY h = Some (c :: s)
      /\ module_init h = (pre ++ [EvConfigure (c :: s)], Done (c :: s))
      /\ Forall (fun e => negb (inner_ev e || is_construction e) = true) pre)
  \/ (exists pre,
         module_init h = (pre, Raised (Exn ValueError missing_key_message))
         /\ Forall (fun e => negb (inner_ev e || is_construction e) = true)
                   pre).
Proof.
  set (pre := (if host_win32 h then [EvStdoutReconfigure] else [])
                ++ [if host_dotenv h then EvLoadDotenv
                    else EvPrint (lit "[INFO] python-dotenv not installed. Install with: pip install python-dotenv")]).
  assert (Hpre : Forall (fun e => negb (inner_ev e || is_construction e)
                                  = true) pre).
  { unfold pre. destruct (host_win32 h), (host_dotenv h);
      repeat constructor. }
  unfold module_init.
  destruct (API_KEY h) as [[|c s]|] eqn:Hk.
  - right. exists pre. split; [|exact Hpre].
    unfold pre. now destruct (host_win32 h), (host_dotenv h).
  - left. exists pre, c, s. split; [reflexivity|]. split; [|exact Hpre].
    unfold pre. now destruct (host_win32 h), (host_dotenv h).
  - right. exists pre. split; [|exact Hpre].
    unfold pre. now destruct (host_win32 h), (host_dotenv h).
Qed.

(** X15.  No remote inference call is made before the credential is
    configured: in every run of the program in which [generate_content] is
    called, [genai.configure] was called before the first such call, with
    the non-empty credential chosen from the environment. *)
Theorem remote_calls_follow_configure :
  forall (h : host) (o : tts_boot) (w : session) (p m d : pystr),
    In (EvGenerateContent p m d) (trace (program h o w)) ->
    exists (c : N) (s : pystr) (pre post : list event),
      API_KEY h = Some (c :: s)
      /\ trace (program h o w) = pre ++ EvConfigure (c :: s) :: post
      /\ count_ev is_remote pre = 0%nat.
Proof.
  intros h o w p m d Hin.
  unfold program in *.
  destruct (module_init_cases h) as [[pre [c [s [Hk [Hm Hpre]]]]]
                                    |[pre [Hm Hpre]]].
  - exists c, s, pre, (trace (main o w)). split; [exact Hk|]. split.
    + steps. rewrite Hm. unfold trace at 1, outcome_of. simpl fst. simpl snd.
      now rewrite <- app_assoc.
    + apply (count_quiet is_remote
               (fun e => negb (inner_ev e || is_construction e)));
        [|exact Hpre].
      intros e He. now destruct e.
  - exfalso. revert Hin. steps. rewrite Hm.
    unfold trace at 1, outcome_of. simpl fst. simpl snd. rewrite app_nil_r.
    intro Hin. rewrite Forall_forall in Hpre. apply Hpre in Hin.
    discriminate.
Qed.

Lemma remote_calls_follow_configure_witness :
  exists (c : N) (s : pystr) (pre post : list event),
    API_KEY sample_host = Some (c :: s)
    /\ trace (program sample_host boot_fine sample_session)
       = pre ++ EvConfigure (c :: s) :: post
    /\ count_ev is_remote pre = 0%nat.
Proof.
  apply (remote_calls_follow_configure sample_host boot_fine sample_session
           ObstacleDetector.fixed_prompt (lit "image/jpeg") (lit "/9j/")).
  vm_compute. repeat (try (left; reflexivity); right).
Defined.

Lemma start_constructions self w :
  filter is_construction (trace (AssistiveAI.start self w))
  = [EvVideoCapture (AssistiveAI.camera_id self)].
Proof.
  assert (Hq : forall e, session_ev e = true -> is_construction e = false)
    by (now intros []).
  rewrite start_shape. cbv zeta.
  destruct (ses_opened w); [|reflexivity].
  steps. rewrite !filter_app.
  rewrite (filter_quiet is_construction console_ev
             (trace (AssistiveAI.announce _ w)));
    [| now intros [] | apply announce_only].
  simpl filter at 1 2.
  destruct (outcome_of (AssistiveAI.announce _ w)); try reflexivity.
  rewrite trace_try_finally, filter_app.
  rewrite (filter_quiet is_construction session_ev
             (trace (AssistiveAI.guarded_loop _ w)));
    [| exact Hq | apply guarded_loop_only].
  destruct (outcome_of (AssistiveAI.guarded_loop _ w));
    rewrite ?cleanup_trace_eq; reflexivity.
Qed.

(** X16.  The program constructs its three collaborators at most once each
    and in one order: the speech engine, then the remote model, then the
    camera capture.  The camera is therefore never opened before the speaker
    and the detector exist, and never opened a second time. *)
Theorem collaborators_constructed_once_in_order :
  forall (h : host) (o : tts_boot) (w : session),
    exists n : nat,
      filter is_construction (trace (program h o w))
      = firstn n construction_order.
Proof.
  intros h o w. unfold program.
  assert (Hmod : filter is_construction (trace (module_init h)) = []).
  { apply (filter_quiet is_construction
             (fun e => negb (is_construction e)));
      [| apply module_init_only].
    intros e He. now apply negb_true_iff. }
  steps. rewrite filter_app, Hmod.
  destruct (outcome_of (module_init h));
    [| exists 0%nat; reflexivity ..].
  unfold main, AssistiveAI.__init__, ObstacleDetector.__init__. steps.
  assert (Hsp : filter is_construction (trace (Speaker.__init__ 170 o))
                = [EvTtsInit]).
  { unfold Speaker.__init__. rewrite trace_try_except. steps.
    destruct (boot_init o) as [[]|ei]; steps;
      [destruct (boot_setProperty o) as [[]|es]; steps|];
      try destruct (is_Exception _); steps; reflexivity. }
  rewrite !filter_app, Hsp.
  destruct (outcome_of (Speaker.__init__ 170 o)) as [sp| |];
    [| exists 1%nat; reflexivity ..].
  steps. rewrite !filter_app, start_constructions.
  exists 3%nat. reflexivity.
Qed.
